(** * Hijri date system: ordinal arithmetic and table lookups

    A shallow embedding of

    - [HijriDate.py]: the classes [HijriDate] and [iTimedelta] and the
      factory [idate];
    - the [HijriDateMapper] class (get_dtype, to_hijri, to_greg,
      get_match_indexes), which filters a table of day-level Gregorian/Hijri
      correspondences;
    - [conversion.py]: [DateMapping.get_dtype], the truthiness-based sibling of
      [HijriDateMapper.get_dtype];
    - [date_loader.py]: the cache of [DateLoader];
    - the generator [hijri_date_range] of the demonstration.

    Python integers are unbounded, hence [Z]; Python's [//] and [%] with a
    positive divisor are floor division and its non-negative remainder, which
    is what [Z.div] and [Z.modulo] compute.  An argument that may be [None] is
    an [option].  A [raise] is the left injection of a sum.  Calls to
    [print] report progress only and are left out. *)

From Stdlib Require Import ZArith List Bool String Lia.
Import ListNotations.
Open Scope Z_scope.

(** ** Exceptions

    Every exception raised by [HijriDate.py] on integer arguments is a
    [ValueError]; the constructors below name the three [raise] sites and
    carry the value that the message interpolates. *)

Inductive ValueError : Type :=
| MonthOutOfRange (month : Z)   (* "Month must be between 1 and 12, got .." *)
| DayOutOfRange (day : Z)       (* "Day must be between 1 and 30, got .." *)
| MonthRequired.                (* "Month must be specified when day is provided" *)

Definition outcome (A : Type) : Type := (ValueError + A)%type.

Definition ret {A : Type} (a : A) : outcome A := inr a.
Definition raise {A : Type} (e : ValueError) : outcome A := inl e.

Definition bind {A B : Type} (c : outcome A) (k : A -> outcome B) : outcome B :=
  match c with
  | inl e => inl e
  | inr a => k a
  end.

Notation "x <- c ;; k" := (bind c (fun x => k))
  (at level 61, c at next level, right associativity).

(** ** [class iTimedelta] *)

Record iTimedelta : Type := mk_iTimedelta { days : Z }.

(** ** [class HijriDate] *)

Module HijriDate.

Record t : Type := mk { year : Z; month : Z; day : Z }.

(** The bounds that [__init__] enforces. *)
Definition valid (d : t) : Prop :=
  1 <= month d <= 12 /\ 1 <= day d <= 30.

Definition __init__ (year month day : Z) : outcome t :=
  if negb ((1 <=? month) && (month <=? 12)) then raise (MonthOutOfRange month)
  else if negb ((1 <=? day) && (day <=? 30)) then raise (DayOutOfRange day)
  else ret (mk year month day).

(** [(self.year, self.month, self.day) == (other.year, other.month, other.day)] *)
Definition __eq__ (self other : t) : bool :=
  (year self =? year other) && (month self =? month other)
  && (day self =? day other).

(** Python's tuple comparison: the first differing component decides. *)
Definition __lt__ (self other : t) : bool :=
  if negb (year self =? year other) then year self <? year other
  else if negb (month self =? month other) then month self <? month other
  else day self <? day other.

Definition _to_ordinal (self : t) : Z :=
  (year self - 1) * 354 + (month self - 1) * 30 + (day self - 1).

Definition _from_ordinal (ordinal : Z) : outcome t :=
  let year := ordinal / 354 + 1 in
  let remaining := ordinal mod 354 in
  let month := remaining / 30 + 1 in
  let day := remaining mod 30 + 1 in
  (* Handle edge cases for month/day overflow *)
  let '(year, month) :=
    if month >? 12 then (year + 1, 1) else (year, month) in
  let '(year, month, day) :=
    if day >? 30 then
      let month := month + 1 in
      let day := 1 in
      if month >? 12 then (year + 1, 1, day) else (year, month, day)
    else (year, month, day) in
  __init__ year month day.

Definition _add_days (self : t) (days : Z) : outcome t :=
  let ordinal := _to_ordinal self + days in
  _from_ordinal ordinal.

(** [__add__] on an [iTimedelta]. *)
Definition __add__ (self : t) (other : iTimedelta) : outcome t :=
  _add_days self (days other).

(** [__sub__] dispatches on the type of its operand: a duration gives a date,
    a date gives a duration. *)
Definition __sub__timedelta (self : t) (other : iTimedelta) : outcome t :=
  _add_days self (- days other).

Definition __sub__date (self other : t) : iTimedelta :=
  let days_diff := _to_ordinal self - _to_ordinal other in
  mk_iTimedelta days_diff.

(** The offset of a date within its year, as [_to_ordinal] counts it:
    [_to_ordinal d = (year d - 1) * 354 + day_of_year d]. *)
Definition day_of_year (d : t) : Z := (month d - 1) * 30 + (day d - 1).

End HijriDate.

(** [iTimedelta.__add__] on a [HijriDate] operand: [return other + self]. *)
Definition iTimedelta__add__date (self : iTimedelta) (other : HijriDate.t)
  : outcome HijriDate.t :=
  HijriDate.__add__ other self.

(** ** [idate]: a single date, or a start date with a duration *)

Inductive idate_value : Type :=
| Single (d : HijriDate.t)
| Range (start_date : HijriDate.t) (duration : iTimedelta).

Definition idate (year : Z) (month day : option Z) : outcome idate_value :=
  match day with
  | Some day =>
      match month with
      | None => raise MonthRequired
      | Some month =>
          d <- HijriDate.__init__ year month day ;; ret (Single d)
      end
  | None =>
      match month with
      | Some month =>
          start_date <- HijriDate.__init__ year month 1 ;;
          ret (Range start_date (mk_iTimedelta 30))
      | None =>
          start_date <- HijriDate.__init__ year 1 1 ;;
          ret (Range start_date (mk_iTimedelta 354))
      end
  end.

(** ** The correspondence table

    A pandas [DataFrame] is an ordered sequence of rows, each carrying its
    index label; boolean-mask selection [df[mask]] keeps the selected rows,
    their order and their labels. *)

Record row : Type := mk_row {
  idx : Z;                (* the row's label in [df.index] *)
  g_year : Z; g_month : Z; g_day : Z;
  h_year : Z; h_month : Z; h_day : Z;
  hijri_method : string
}.

Definition DataFrame : Type := list row.

(** [len(..)] as a Python integer. *)
Definition len {A : Type} (l : list A) : Z := Z.of_nat (List.length l).

(** [column == value], row by row; an integer never equals [None]. *)
Definition col_eq (col : row -> Z) (value : option Z) (r : row) : bool :=
  match value with
  | Some v => col r =? v
  | None => false
  end.

(** [index[0]] and [index[-1]] of a frame that is not empty. *)
Definition index_first (r0 : row) (rest : DataFrame) : Z := idx r0.
Definition index_last (r0 : row) (rest : DataFrame) : Z := idx (last rest r0).

Module HijriDateMapper.

Definition sample_data : DataFrame :=
  [ mk_row 0 2024 1 15 1445 7 4 "ISNA";
    mk_row 1 2024 1 16 1445 7 5 "ISNA";
    mk_row 2 2024 1 17 1445 7 6 "ISNA";
    mk_row 3 2024 2 10 1445 8 1 "ISNA";
    mk_row 4 2024 2 11 1445 8 2 "ISNA";
    mk_row 5 2025 1 5 1446 7 25 "ISNA";
    mk_row 6 2025 1 6 1446 7 26 "ISNA";
    mk_row 7 2025 3 20 1446 9 10 "ISNA" ].

Definition is_not_None {A : Type} (x : option A) : bool :=
  match x with Some _ => true | None => false end.

Definition get_dtype (year month day : option Z) : string :=
  if is_not_None year && is_not_None month && is_not_None day then "date"
  else if is_not_None year && is_not_None month then "month_range"
  else if is_not_None year then "year_range"
  else "invalid".

(** What both lookups do with the selected rows. *)
Definition index_tracking (result : DataFrame)
  : (DataFrame * option Z * Z)%type :=
  match result with
  | [] => (result, None, 0)
  | r0 :: rest =>
      let first_index := index_first r0 rest in
      let last_index := index_last r0 rest in
      let span := last_index - first_index in
      (result, Some first_index, span)
  end.

Definition to_hijri (df : DataFrame) (year month day : option Z)
  : (DataFrame * option Z * Z)%type :=
  let dtype := get_dtype year month day in
  let result :=
    if (dtype =? "date")%string then
      filter (fun r => col_eq g_year year r && col_eq g_month month r
                       && col_eq g_day day r) df
    else if (dtype =? "month_range")%string then
      filter (fun r => col_eq g_year year r && col_eq g_month month r) df
    else if (dtype =? "year_range")%string then
      filter (fun r => col_eq g_year year r) df
    else [] in
  index_tracking result.

Definition to_greg (df : DataFrame) (year month day : option Z)
  : (DataFrame * option Z * Z)%type :=
  let dtype := get_dtype year month day in
  let result :=
    if (dtype =? "date")%string then
      filter (fun r => col_eq h_year year r && col_eq h_month month r
                       && col_eq h_day day r) df
    else if (dtype =? "month_range")%string then
      filter (fun r => col_eq h_year year r && col_eq h_month month r) df
    else if (dtype =? "year_range")%string then
      filter (fun r => col_eq h_year year r) df
    else [] in
  index_tracking result.

(** [self.df.index[mask]]: the labels of the selected rows. *)
Definition index_of_mask (df : DataFrame) (mask : row -> bool) : list Z :=
  map idx (filter mask df).

Definition get_match_indexes (df : DataFrame) (year month day : option Z)
    (date_type : string) : (option Z * option Z * Z)%type :=
  let dtype := get_dtype year month day in
  let '(year_col, month_col, day_col) :=
    if (date_type =? "gregorian")%string then (g_year, g_month, g_day)
    else (h_year, h_month, h_day) in
  let mask : option (row -> bool) :=
    if (dtype =? "date")%string then
      Some (fun r => col_eq year_col year r && col_eq month_col month r
                     && col_eq day_col day r)
    else if (dtype =? "month_range")%string then
      Some (fun r => col_eq year_col year r && col_eq month_col month r)
    else if (dtype =? "year_range")%string then
      Some (fun r => col_eq year_col year r)
    else None in
  match mask with
  | None => (None, None, 0)
  | Some mask =>
      let matching_indexes := index_of_mask df mask in
      match matching_indexes with
      | [] => (None, None, 0)
      | i0 :: rest => (Some i0, Some (last rest i0), len matching_indexes)
      end
  end.

End HijriDateMapper.

(** ** [DateMapping.get_dtype] ([conversion.py])

    The sibling classifier tests its arguments for truth, so that [None] and
    [0] both count as absent, and answers [None] where no shape fits. *)

Module DateMapping.

Definition truthy (x : option Z) : bool :=
  match x with
  | Some v => negb (v =? 0)
  | None => false
  end.

Definition Allowed : list string :=
  ["datetime"; "date"; "month_range"; "year_range"]%string.

Definition get_dtype (year month day : option Z) : option string :=
  if truthy year && truthy month && truthy day then nth_error Allowed 1
  else if truthy year && truthy month && negb (truthy day)
  then nth_error Allowed 2
  else if truthy year && negb (truthy month) && negb (truthy day)
  then nth_error Allowed 3
  else None.

End DateMapping.

(** ** Queries, directions and the order of the table

    The vocabulary in which the lookups are specified. *)

(** [to_hijri] answers Gregorian queries, [to_greg] Hijri ones. *)
Inductive direction : Type := GregorianToHijri | HijriToGregorian.

Definition query (dir : direction)
  : DataFrame -> option Z -> option Z -> option Z
    -> (DataFrame * option Z * Z)%type :=
  match dir with
  | GregorianToHijri => HijriDateMapper.to_hijri
  | HijriToGregorian => HijriDateMapper.to_greg
  end.

(** The columns a direction compares with the query. *)
Definition year_col (dir : direction) : row -> Z :=
  match dir with GregorianToHijri => g_year | HijriToGregorian => h_year end.
Definition month_col (dir : direction) : row -> Z :=
  match dir with GregorianToHijri => g_month | HijriToGregorian => h_month end.
Definition day_col (dir : direction) : row -> Z :=
  match dir with GregorianToHijri => g_day | HijriToGregorian => h_day end.

(** The [date_type] strings of [get_match_indexes] that select a direction:
    ["gregorian"] for the Gregorian columns, any other string for the Hijri
    ones. *)
Definition names_direction (date_type : string) (dir : direction) : bool :=
  match dir with
  | GregorianToHijri => (date_type =? "gregorian")%string
  | HijriToGregorian => negb (date_type =? "gregorian")%string
  end.

(** A row matches a query of a given precision when the fields that the
    precision names equal the query's; nothing matches an invalid query. *)
Definition matches (dir : direction) (dtype : string)
    (year month day : option Z) (r : row) : bool :=
  if (dtype =? "date")%string then
    col_eq (year_col dir) year r && col_eq (month_col dir) month r
    && col_eq (day_col dir) day r
  else if (dtype =? "month_range")%string then
    col_eq (year_col dir) year r && col_eq (month_col dir) month r
  else if (dtype =? "year_range")%string then
    col_eq (year_col dir) year r
  else false.

(** Ascending order of [(g_year, g_month, g_day)], the order in which
    [_load_mapping_data] leaves the table after
    [sort_values(["g_year", "g_month", "g_day"])]. *)
Definition g_key_leb (r1 r2 : row) : bool :=
  (g_year r1 <? g_year r2)
  || ((g_year r1 =? g_year r2)
      && ((g_month r1 <? g_month r2)
          || ((g_month r1 =? g_month r2) && (g_day r1 <=? g_day r2)))).

Fixpoint sorted_by_gregorian (df : DataFrame) : bool :=
  match df with
  | [] => true
  | r :: rest =>
      match rest with
      | [] => true
      | r' :: _ => g_key_leb r r' && sorted_by_gregorian rest
      end
  end.

(** Positions 0..n-1 as index labels, in table order. *)
Definition range_index (df : DataFrame) : Prop :=
  map idx df = map Z.of_nat (seq 0 (List.length df)).

(** First label, last label and number of rows of a selection. *)
Definition positions (result : DataFrame) : (option Z * option Z * Z)%type :=
  match result with
  | [] => (None, None, 0)
  | r0 :: rest =>
      (Some (index_first r0 rest), Some (index_last r0 rest), len result)
  end.

(** A predicate on rows that holds on whole intervals of the Gregorian
    order. *)
Definition convex (p : row -> bool) : Prop :=
  forall a b c,
    g_key_leb a b = true -> g_key_leb b c = true ->
    p a = true -> p c = true -> p b = true.

(** ** The remaining operations of [iTimedelta]

    Those on integer operands; [__mul__] is [int(self.days * other)], which
    for an integer factor is the product itself. *)

Module Timedelta.

Definition __eq__ (self other : iTimedelta) : bool :=
  days self =? days other.

Definition __lt__ (self other : iTimedelta) : bool :=
  days self <? days other.

Definition __add__ (self other : iTimedelta) : iTimedelta :=
  mk_iTimedelta (days self + days other).

Definition __sub__ (self other : iTimedelta) : iTimedelta :=
  mk_iTimedelta (days self - days other).

Definition __mul__ (self : iTimedelta) (other : Z) : iTimedelta :=
  mk_iTimedelta (days self * other).

Definition __rmul__ (self : iTimedelta) (other : Z) : iTimedelta :=
  __mul__ self other.

Definition __neg__ (self : iTimedelta) : iTimedelta :=
  mk_iTimedelta (- days self).

Definition __pos__ (self : iTimedelta) : iTimedelta :=
  mk_iTimedelta (days self).

Definition __abs__ (self : iTimedelta) : iTimedelta :=
  mk_iTimedelta (Z.abs (days self)).

Definition __bool__ (self : iTimedelta) : bool :=
  negb (days self =? 0).

Definition total_days (self : iTimedelta) : Z := days self.

End Timedelta.

(** ** The comparisons that [functools.total_ordering] adds to [HijriDate]

    The decorator derives them from [__lt__] and [__eq__]: [a > b] is
    [not (a < b) and a != b], [a <= b] is [a < b or a == b], and [a >= b] is
    [not (a < b)]. *)

Module HijriDateOrdering.

Definition __ne__ (self other : HijriDate.t) : bool :=
  negb (HijriDate.__eq__ self other).

Definition __gt__ (self other : HijriDate.t) : bool :=
  negb (HijriDate.__lt__ self other) && __ne__ self other.

Definition __le__ (self other : HijriDate.t) : bool :=
  HijriDate.__lt__ self other || HijriDate.__eq__ self other.

Definition __ge__ (self other : HijriDate.t) : bool :=
  negb (HijriDate.__lt__ self other).

End HijriDateOrdering.

(** ** Further vocabulary for tables *)

(** Index labels in strictly ascending order. *)
Fixpoint labels_ascending (df : DataFrame) : bool :=
  match df with
  | [] => true
  | r :: rest =>
      match rest with
      | [] => true
      | r' :: _ => (idx r <? idx r') && labels_ascending rest
      end
  end.

(** The Gregorian date of a row, and the Hijri one. *)
Definition g_date (r : row) : Z * Z * Z := (g_year r, g_month r, g_day r).
Definition h_date (r : row) : Z * Z * Z := (h_year r, h_month r, h_day r).

(** The date of a row in the calendar that a direction queries. *)
Definition key (dir : direction) (r : row) : Z * Z * Z :=
  (year_col dir r, month_col dir r, day_col dir r).

(** The rows at positions [first .. first + span] of a table, which the
    examples write [df.iloc[first : first + span + 1]]. *)
Definition rows_between (df : DataFrame) (first span : Z) : DataFrame :=
  firstn (Z.to_nat (span + 1)) (skipn (Z.to_nat first) df).

(** A component that [DateMapping.get_dtype] treats as absent. *)
Definition drop_zero (x : option Z) : option Z :=
  match x with
  | Some 0 => None
  | _ => x
  end.

(** No two rows of the table carry the same date in the calendar that a
    direction queries. *)
Definition date_eqb (a b : Z * Z * Z) : bool :=
  let '(y1, m1, d1) := a in
  let '(y2, m2, d2) := b in
  (y1 =? y2) && (m1 =? m2) && (d1 =? d2).

Fixpoint dates_unique (dir : direction) (df : DataFrame) : bool :=
  match df with
  | [] => true
  | r :: rest =>
      negb (existsb (fun r' => date_eqb (key dir r) (key dir r')) rest)
      && dates_unique dir rest
  end.

(** The rows that a lookup returns. *)
Definition rows (answer : DataFrame * option Z * Z) : DataFrame :=
  fst (fst answer).

(** ** [class DateLoader] ([date_loader.py])

    The loader keeps the table it read in [_data].  What
    [_load_mapping_data] would answer at the time of a call, a table or one
    of its exceptions, is the argument [disk]. *)

Inductive LoadError : Type :=
| FileNotFoundError
| PermissionError
| LoadValueError
| RuntimeError.

Module DateLoader.

Record t : Type := mk { _data : option DataFrame }.

Definition __init__ : t := mk None.

Definition load_data (disk : LoadError + DataFrame) (self : t)
  : (LoadError + DataFrame) * t :=
  match _data self with
  | None =>
      match disk with
      | inl e => (inl e, self)
      | inr df => (inr df, mk (Some df))
      end
  | Some df => (inr df, self)
  end.

Definition reload_data (disk : LoadError + DataFrame) (self : t)
  : (LoadError + DataFrame) * t :=
  let self := mk None in
  load_data disk self.

End DateLoader.

(** ** [hijri_date_range], collected into a list

    The generator of the demonstration yields [current] while
    [current <= end_date] and then moves on by [step_days].  [fuel] bounds the
    number of tests of the loop; [None] means that it ran out. *)

Fixpoint hijri_date_range (fuel : nat) (start_date end_date : HijriDate.t)
    (step_days : Z) : option (outcome (list HijriDate.t)) :=
  match fuel with
  | O => None
  | S fuel =>
      let current := start_date in
      if HijriDateOrdering.__le__ current end_date then
        match HijriDate.__add__ current (mk_iTimedelta step_days) with
        | inl e => Some (inl e)
        | inr next =>
            match hijri_date_range fuel next end_date step_days with
            | None => None
            | Some (inl e) => Some (inl e)
            | Some (inr later) => Some (inr (current :: later))
            end
        end
      else Some (inr [])
  end.

(** A row of Gregorian year [y] and, when a month is asked for, of that
    month: the rows that a Gregorian year or month holds. *)
Definition in_gregorian_range (y : Z) (month : option Z) (r : row) : bool :=
  (g_year r =? y)
  && match month with
     | Some m => g_month r =? m
     | None => true
     end.

(** How many rows of a table satisfy a condition. *)
Fixpoint rows_holding (p : row -> bool) (df : DataFrame) : nat :=
  match df with
  | [] => O
  | r :: rest => ((if p r then 1 else 0) + rows_holding p rest)%nat
  end.

(** * Properties of the date arithmetic *)

Section OrdinalArithmetic.

Import HijriDate.

(** [__init__] is a check: it returns its arguments untouched or raises. *)
Lemma init_in_range (y m d : Z) :
  1 <= m <= 12 -> 1 <= d <= 30 -> __init__ y m d = inr (mk y m d).
Proof.
  intros Hm Hd. unfold __init__.
  replace ((1 <=? m) && (m <=? 12)) with true
    by (symmetry; apply andb_true_iff; split; apply Z.leb_le; lia).
  replace ((1 <=? d) && (d <=? 30)) with true
    by (symmetry; apply andb_true_iff; split; apply Z.leb_le; lia).
  reflexivity.
Qed.

Lemma init_inr (y m d : Z) (x : t) :
  __init__ y m d = inr x -> x = mk y m d /\ valid x.
Proof.
  unfold __init__, raise, ret.
  destruct ((1 <=? m) && (m <=? 12)) eqn:Hm; simpl; [|discriminate].
  destruct ((1 <=? d) && (d <=? 30)) eqn:Hd; simpl; [|discriminate].
  intros [= <-]. split; [reflexivity|].
  apply andb_true_iff in Hm, Hd. unfold valid; simpl.
  rewrite !Z.leb_le in Hm, Hd. lia.
Qed.

Lemma init_inl (y m d : Z) :
  (exists e, __init__ y m d = inl e) <-> ~ (1 <= m <= 12 /\ 1 <= d <= 30).
Proof.
  split.
  - intros [e He] [Hm Hd]. rewrite init_in_range in He by assumption.
    discriminate.
  - intros Hn. unfold __init__, raise, ret.
    destruct ((1 <=? m) && (m <=? 12)) eqn:Hm; simpl; [|eauto].
    destruct ((1 <=? d) && (d <=? 30)) eqn:Hd; simpl; [|eauto].
    apply andb_true_iff in Hm, Hd. rewrite !Z.leb_le in Hm, Hd. lia.
Qed.

(** The quotient and remainder that [_from_ordinal] starts from are already
    within the bounds, so neither overflow branch is ever taken. *)
Lemma from_ordinal_closed_form (n : Z) :
  _from_ordinal n =
  inr (mk (n / 354 + 1) (n mod 354 / 30 + 1) (n mod 354 mod 30 + 1)).
Proof.
  unfold _from_ordinal.
  assert (Hr : 0 <= n mod 354 < 354) by (apply Z.mod_pos_bound; lia).
  assert (Hq : 0 <= n mod 354 / 30 <= 11).
  { split; [apply Z.div_pos; lia|].
    apply Z.lt_succ_r, Z.div_lt_upper_bound; lia. }
  assert (Hd : 0 <= n mod 354 mod 30 < 30) by (apply Z.mod_pos_bound; lia).
  replace (n mod 354 / 30 + 1 >? 12) with false
    by (symmetry; rewrite Z.gtb_ltb; apply Z.ltb_ge; lia).
  replace (n mod 354 mod 30 + 1 >? 30) with false
    by (symmetry; rewrite Z.gtb_ltb; apply Z.ltb_ge; lia).
  apply init_in_range; lia.
Qed.

Lemma from_ordinal_valid (n : Z) :
  exists d, _from_ordinal n = inr d /\ valid d.
Proof.
  eexists. split; [apply from_ordinal_closed_form|].
  assert (Hr : 0 <= n mod 354 < 354) by (apply Z.mod_pos_bound; lia).
  assert (Hq : 0 <= n mod 354 / 30 <= 11).
  { split; [apply Z.div_pos; lia|].
    apply Z.lt_succ_r, Z.div_lt_upper_bound; lia. }
  assert (Hd : 0 <= n mod 354 mod 30 < 30) by (apply Z.mod_pos_bound; lia).
  unfold valid; simpl. lia.
Qed.

Lemma to_ordinal_from_ordinal (n : Z) :
  exists d, _from_ordinal n = inr d /\ _to_ordinal d = n.
Proof.
  eexists. split; [apply from_ordinal_closed_form|].
  unfold _to_ordinal; simpl.
  pose proof (Z.div_mod n 354 ltac:(lia)) as H1.
  pose proof (Z.div_mod (n mod 354) 30 ltac:(lia)) as H2.
  lia.
Qed.

Lemma day_of_year_bounds (d : t) : valid d -> 0 <= day_of_year d <= 359.
Proof. unfold valid, day_of_year. lia. Qed.

(** Dates up to the 24th of the twelfth month are recovered from their
    ordinal; the offsets 354..359 of the later ones fall into the next
    year. *)
Lemma from_ordinal_to_ordinal_early (d : t) :
  valid d -> day_of_year d < 354 -> _from_ordinal (_to_ordinal d) = inr d.
Proof.
  intros [Hm Hd] Hlt. unfold day_of_year in Hlt.
  rewrite from_ordinal_closed_form. unfold _to_ordinal.
  destruct d as [y m dd]; simpl in *.
  set (r := (m - 1) * 30 + (dd - 1)) in *.
  replace ((y - 1) * 354 + (m - 1) * 30 + (dd - 1)) with (r + (y - 1) * 354)
    by (unfold r; lia).
  rewrite Z.div_add, Z.mod_add by lia.
  rewrite (Z.div_small r), (Z.mod_small r) by (unfold r; lia).
  unfold r. replace ((m - 1) * 30 + (dd - 1)) with ((dd - 1) + (m - 1) * 30)
    by lia.
  rewrite Z.div_add, Z.mod_add by lia.
  rewrite Z.div_small, Z.mod_small by lia.
  do 2 f_equal; lia.
Qed.

Lemma from_ordinal_to_ordinal_late (y dd : Z) :
  25 <= dd <= 30 ->
  _from_ordinal (_to_ordinal (mk y 12 dd)) = inr (mk (y + 1) 1 (dd - 24)).
Proof.
  intros Hd. rewrite from_ordinal_closed_form.
  unfold _to_ordinal; cbn [year month day].
  replace ((y - 1) * 354 + (12 - 1) * 30 + (dd - 1))
    with ((dd - 25) + y * 354) by lia.
  rewrite Z.div_add, Z.mod_add by lia.
  rewrite (Z.div_small (dd - 25)), (Z.mod_small (dd - 25) 354) by lia.
  rewrite Z.div_small, Z.mod_small by lia.
  do 2 f_equal; lia.
Qed.

(** The end of a month other than the twelfth rolls over to the next. *)
Lemma month_rollover (y m : Z) :
  1 <= m < 12 ->
  __add__ (mk y m 30) (mk_iTimedelta 1) = inr (mk y (m + 1) 1).
Proof.
  intros Hm. unfold __add__, _add_days; simpl.
  replace (_to_ordinal (mk y m 30) + 1) with (_to_ordinal (mk y (m + 1) 1))
    by (unfold _to_ordinal; simpl; lia).
  apply from_ordinal_to_ordinal_early.
  - unfold valid; simpl; lia.
  - unfold day_of_year; simpl; lia.
Qed.

(** Within one year, and between dates none of which lies after the 24th of
    the twelfth month, the ordinal orders dates as [__lt__] does. *)
Lemma lt_iff_ordinal_same_year (d1 d2 : t) :
  valid d1 -> valid d2 -> year d1 = year d2 ->
  (__lt__ d1 d2 = true <-> _to_ordinal d1 < _to_ordinal d2).
Proof.
  intros [Hm1 Hd1] [Hm2 Hd2] Hy. unfold __lt__, _to_ordinal. rewrite Hy.
  rewrite Z.eqb_refl; simpl.
  destruct (month d1 =? month d2) eqn:Hm; simpl.
  - apply Z.eqb_eq in Hm. rewrite Z.ltb_lt. lia.
  - apply Z.eqb_neq in Hm. rewrite Z.ltb_lt. lia.
Qed.

Lemma lt_iff_ordinal_early (d1 d2 : t) :
  valid d1 -> valid d2 -> day_of_year d1 < 354 -> day_of_year d2 < 354 ->
  (__lt__ d1 d2 = true <-> _to_ordinal d1 < _to_ordinal d2).
Proof.
  intros V1 V2 H1 H2.
  destruct (Z.eq_dec (year d1) (year d2)) as [Hy|Hy].
  - now apply lt_iff_ordinal_same_year.
  - destruct V1 as [Hm1 Hd1], V2 as [Hm2 Hd2].
    unfold day_of_year in *. unfold __lt__, _to_ordinal.
    apply Z.eqb_neq in Hy. rewrite Hy; simpl. apply Z.eqb_neq in Hy.
    rewrite Z.ltb_lt. lia.
Qed.

End OrdinalArithmetic.

(** * The claims about the date arithmetic *)

Section DateClaims.

Import HijriDate.

(** C1. Round trip through the ordinal, and the additive identities built on
    it.  The constructor accepts the 25th of the twelfth month, but its
    ordinal, 354, is also the ordinal of the first day of the next year:
    converting back, adding a zero duration, and adding then subtracting
    ten days all answer the first day of year 2 instead of the date given. *)
Theorem roundtrip_fails_late_in_year :
  __init__ 1 12 25 = inr (mk 1 12 25) /\
  _to_ordinal (mk 1 12 25) = 354 /\
  _from_ordinal (_to_ordinal (mk 1 12 25)) = inr (mk 2 1 1) /\
  __add__ (mk 1 12 25) (mk_iTimedelta 0) = inr (mk 2 1 1) /\
  (d' <- __add__ (mk 1 12 25) (mk_iTimedelta 10) ;;
   __sub__timedelta d' (mk_iTimedelta 10)) = inr (mk 2 1 1) /\
  __eq__ (mk 2 1 1) (mk 1 12 25) = false.
Proof. repeat split; reflexivity. Qed.

(** C2. Rollover at the end of a month.  At the end of the twelfth month
    the code lands on the seventh day of the next year, for every year,
    where the claim and the module's own test expect the first. *)
Theorem year_rollover_lands_on_seventh (y : Z) :
  __init__ y 12 30 = inr (mk y 12 30) /\
  __add__ (mk y 12 30) (mk_iTimedelta 1) = inr (mk (y + 1) 1 7) /\
  __eq__ (mk (y + 1) 1 7) (mk (y + 1) 1 1) = false.
Proof.
  split; [reflexivity|]. split; [|unfold __eq__; cbn [year month day]; apply andb_false_r].
  unfold __add__, _add_days. cbn [days].
  rewrite from_ordinal_closed_form.
  unfold _to_ordinal; cbn [year month day].
  replace ((y - 1) * 354 + (12 - 1) * 30 + (30 - 1) + 1)
    with (6 + y * 354) by lia.
  rewrite Z.div_add, Z.mod_add by lia. reflexivity.
Qed.

(** C3. Order by [(year, month, day)] against order by ordinal.  The 30th
    of the twelfth month precedes the first day of the next year in the
    lexicographic order, yet its ordinal is the larger one. *)
Theorem order_disagrees_with_ordinal :
  __init__ 1 12 30 = inr (mk 1 12 30) /\
  __init__ 2 1 1 = inr (mk 2 1 1) /\
  __lt__ (mk 1 12 30) (mk 2 1 1) = true /\
  _to_ordinal (mk 1 12 30) = 359 /\
  _to_ordinal (mk 2 1 1) = 354.
Proof. repeat split; reflexivity. Qed.

(** C5. The bounds on month and day are an invariant of every date the
    arithmetic produces: the constructor raises exactly when a bound fails
    (whatever the year) and otherwise returns its arguments; [_from_ordinal]
    returns an in-bounds date for every integer ordinal, and so do addition
    and subtraction of a duration, in either operand order. *)
Theorem dates_stay_in_bounds :
  (forall y m d,
      (exists e, __init__ y m d = inl e) <->
      ~ (1 <= m <= 12 /\ 1 <= d <= 30)) /\
  (forall y m d x, __init__ y m d = inr x -> x = mk y m d /\ valid x) /\
  (forall n, exists x, _from_ordinal n = inr x /\ valid x) /\
  (forall d td, exists x, __add__ d td = inr x /\ valid x) /\
  (forall d td, exists x, __sub__timedelta d td = inr x /\ valid x) /\
  (forall td d, exists x, iTimedelta__add__date td d = inr x /\ valid x).
Proof.
  split; [exact init_inl|]. split; [exact init_inr|].
  split; [exact from_ordinal_valid|].
  repeat split; intros; apply from_ordinal_valid.
Qed.

Lemma dates_stay_in_bounds_witness :
  (exists e, __init__ 1447 13 1 = inl e) /\
  (mk 1447 6 15 = mk 1447 6 15 /\ valid (mk 1447 6 15)).
Proof.
  destruct dates_stay_in_bounds as (Hraise & Hok & _).
  split.
  - apply (proj2 (Hraise 1447 13 1)). lia.
  - apply (Hok 1447 6 15). reflexivity.
Defined.

(** C10. Converting an ordinal to a date and back gives the ordinal again,
    for every integer, negative ones included. *)
Theorem ordinal_roundtrip (n : Z) :
  exists d, _from_ordinal n = inr d /\ _to_ordinal d = n.
Proof. apply to_ordinal_from_ordinal. Qed.

End DateClaims.

(** C9. The four argument shapes of [idate]: a day without a month raises; a
    year and a month give the first of that month with a 30-day duration; a
    year alone gives the first day of the year with a 354-day duration; all
    three give the date itself.  Every date goes through the constructor, whose
    error is passed on. *)
Theorem idate_shapes (year : Z) :
  (forall day, idate year None (Some day) = inl MonthRequired) /\
  (forall month,
      idate year (Some month) None =
      match HijriDate.__init__ year month 1 with
      | inl e => inl e
      | inr start => inr (Range start (mk_iTimedelta 30))
      end) /\
  (forall month, 1 <= month <= 12 ->
      idate year (Some month) None =
      inr (Range (HijriDate.mk year month 1) (mk_iTimedelta 30))) /\
  idate year None None =
    inr (Range (HijriDate.mk year 1 1) (mk_iTimedelta 354)) /\
  (forall month day,
      idate year (Some month) (Some day) =
      match HijriDate.__init__ year month day with
      | inl e => inl e
      | inr d => inr (Single d)
      end) /\
  (forall month day, 1 <= month <= 12 -> 1 <= day <= 30 ->
      idate year (Some month) (Some day) =
      inr (Single (HijriDate.mk year month day))).
Proof.
  repeat split; intros; try reflexivity; unfold idate.
  - rewrite init_in_range by lia. reflexivity.
  - rewrite init_in_range by lia. reflexivity.
Qed.

Lemma idate_shapes_witness :
  idate 1447 (Some 6) None
  = inr (Range (HijriDate.mk 1447 6 1) (mk_iTimedelta 30)) /\
  idate 1447 (Some 6) (Some 15) = inr (Single (HijriDate.mk 1447 6 15)).
Proof.
  destruct (idate_shapes 1447) as (_ & _ & Hmonth & _ & _ & Hdate).
  split.
  - apply Hmonth. lia.
  - apply Hdate; lia.
Defined.

(** * Properties of the table lookups *)

Section Lookups.

Import HijriDateMapper.

Lemma filter_none {A : Type} (l : list A) : filter (fun _ => false) l = [].
Proof. induction l; simpl; auto. Qed.

(** Both lookups select the rows that match at the query's precision. *)
Lemma query_selects_matches (dir : direction) (df : DataFrame)
    (year month day : option Z) :
  query dir df year month day =
  index_tracking
    (filter (matches dir (get_dtype year month day) year month day) df).
Proof.
  destruct dir, year, month, day; unfold query, to_hijri, to_greg, matches;
    cbn; try reflexivity; now rewrite filter_none.
Qed.

Lemma last_map_idx (rest : DataFrame) (r0 : row) :
  last (map idx rest) (idx r0) = idx (last rest r0).
Proof.
  revert r0. induction rest as [|r rest IH]; intros r0; [reflexivity|].
  cbn [map]. destruct rest as [|r' rest']; [reflexivity|].
  change (last (map idx (r' :: rest')) (idx r0) = idx (last (r' :: rest') r0)).
  apply IH.
Qed.

Lemma positions_of_labels (result : DataFrame) :
  match map idx result with
  | [] => (None, None, 0)
  | i0 :: rest => (Some i0, Some (last rest i0), len (map idx result))
  end = positions result.
Proof.
  destruct result as [|r0 rest]; [reflexivity|].
  cbn [map positions]. unfold index_first, index_last, len.
  rewrite last_map_idx. cbn [List.length]. now rewrite length_map.
Qed.

Lemma get_match_indexes_selects_matches (dir : direction) (df : DataFrame)
    (year month day : option Z) (date_type : string) :
  names_direction date_type dir = true ->
  get_match_indexes df year month day date_type =
  positions
    (filter (matches dir (get_dtype year month day) year month day) df).
Proof.
  intros Hdir. unfold get_match_indexes.
  assert (Hcols :
    (if (date_type =? "gregorian")%string
     then (g_year, g_month, g_day) else (h_year, h_month, h_day))
    = (year_col dir, month_col dir, day_col dir)).
  { destruct dir; cbn in Hdir |- *.
    - now rewrite Hdir.
    - apply negb_true_iff in Hdir. now rewrite Hdir. }
  rewrite Hcols. clear Hcols Hdir.
  destruct year, month, day; unfold matches, index_of_mask; cbn;
    try apply positions_of_labels; now rewrite filter_none.
Qed.

End Lookups.

(** * Selections from a table in Gregorian order *)

Section SortedTable.

Lemma g_key_leb_spec (a b : row) :
  g_key_leb a b = true <->
  g_year a < g_year b \/
  g_year a = g_year b /\
  (g_month a < g_month b \/ g_month a = g_month b /\ g_day a <= g_day b).
Proof.
  unfold g_key_leb.
  rewrite !orb_true_iff, !andb_true_iff, !orb_true_iff, !andb_true_iff.
  rewrite !Z.ltb_lt, !Z.eqb_eq, Z.leb_le. tauto.
Qed.

Lemma g_key_leb_refl (a : row) : g_key_leb a a = true.
Proof. apply g_key_leb_spec. lia. Qed.

Lemma g_key_leb_trans (a b c : row) :
  g_key_leb a b = true -> g_key_leb b c = true -> g_key_leb a c = true.
Proof. rewrite !g_key_leb_spec. lia. Qed.

Lemma sorted_tail (a : row) (l : DataFrame) :
  sorted_by_gregorian (a :: l) = true -> sorted_by_gregorian l = true.
Proof.
  destruct l as [|b l]; [reflexivity|].
  cbn [sorted_by_gregorian]. intros H.
  apply andb_true_iff in H. apply H.
Qed.

Lemma sorted_head_least (l : DataFrame) :
  forall a b,
    sorted_by_gregorian (a :: l) = true -> In b l -> g_key_leb a b = true.
Proof.
  induction l as [|x l IH]; intros a b Hs Hin; [destruct Hin|].
  assert (Hax : g_key_leb a x = true).
  { cbn [sorted_by_gregorian] in Hs. apply andb_true_iff in Hs. apply Hs. }
  destruct Hin as [<-|Hin]; [exact Hax|].
  apply g_key_leb_trans with x; [exact Hax|].
  apply IH; [|exact Hin]. now apply sorted_tail in Hs.
Qed.

(** The rows selected by a convex predicate lie side by side in the table,
    after rows that are all rejected. *)
Lemma convex_filter_block (p : row -> bool) (l : DataFrame) :
  convex p -> sorted_by_gregorian l = true ->
  exists before after,
    l = before ++ filter p l ++ after /\
    (forall x, In x before -> p x = false).
Proof.
  intros Hp. induction l as [|a l IH]; intros Hs.
  - exists [], []. split; [reflexivity|intros x []].
  - destruct (IH (sorted_tail _ _ Hs)) as (before & after & Hl & Hbefore).
    cbn [filter]. destruct (p a) eqn:Hpa.
    + destruct before as [|b before'].
      * exists [], after. split; [cbn; f_equal; exact Hl|intros x []].
      * destruct (filter p l) as [|c sel] eqn:Hsel.
        { exists [], l. split; [reflexivity|intros x []]. }
        exfalso.
        assert (Hcl : In c l /\ p c = true).
        { apply (filter_In p). rewrite Hsel. now left. }
        destruct Hcl as [Hcl Hpc].
        assert (Hbl : In b l) by (rewrite Hl; now left).
        assert (Hab : g_key_leb a b = true)
          by (apply sorted_head_least with l; assumption).
        assert (Hbc : g_key_leb b c = true).
        { rewrite Hl in Hcl, Hs. apply sorted_tail in Hs.
          destruct Hcl as [<-|Hcl]; [apply g_key_leb_refl|].
          cbn [app] in Hs.
          apply sorted_head_least with (before' ++ (c :: sel) ++ after);
            assumption. }
        specialize (Hp a b c Hab Hbc Hpa Hpc).
        rewrite (Hbefore b) in Hp by now left. discriminate.
    + exists (a :: before), after. split.
      * cbn. f_equal. exact Hl.
      * intros x [<-|Hx]; [exact Hpa|now apply Hbefore].
Qed.

Lemma app_same_length {A : Type} (a1 b1 a2 b2 : list A) :
  List.length a1 = List.length b1 -> a1 ++ a2 = b1 ++ b2 ->
  a1 = b1 /\ a2 = b2.
Proof.
  revert b1. induction a1 as [|x a1 IH]; intros [|y b1] Hlen Heq;
    try discriminate; [now split|].
  cbn in Hlen, Heq. injection Hlen as Hlen. injection Heq as -> Heq.
  destruct (IH b1 Hlen Heq) as [-> ->]. now split.
Qed.

(** In a table labelled 0..n-1, a block of rows carries consecutive
    labels, starting at the number of rows before it. *)
Lemma range_index_block (before sel after : DataFrame) :
  range_index (before ++ sel ++ after) ->
  map idx sel =
  map Z.of_nat (seq (List.length before) (List.length sel)).
Proof.
  unfold range_index. rewrite !length_app, !map_app.
  rewrite seq_app, map_app, seq_app, map_app. cbn [Nat.add].
  intros H.
  apply app_same_length in H; [|now rewrite !length_map, length_seq].
  destruct H as [_ H].
  apply app_same_length in H; [|now rewrite !length_map, length_seq].
  apply H.
Qed.

Lemma last_cons {A : Type} (l : list A) :
  forall a d, last (a :: l) d = last l a.
Proof.
  induction l as [|x l IH]; intros a d; [reflexivity|].
  change (last (a :: x :: l) d) with (last (x :: l) d).
  now rewrite (IH x d), (IH x a).
Qed.

Lemma last_of_consecutive (rest : DataFrame) :
  forall r0 i,
    map idx (r0 :: rest) = map Z.of_nat (seq i (S (List.length rest))) ->
    idx r0 = Z.of_nat i /\ idx (last rest r0) = Z.of_nat i + len rest.
Proof.
  induction rest as [|r rest IH]; intros r0 i H.
  - cbn in H. injection H as H. cbn. split; [|unfold len; cbn]; lia.
  - assert (H' : idx r0 :: map idx (r :: rest) =
                 Z.of_nat i
                 :: map Z.of_nat (seq (S i) (S (List.length rest))))
      by exact H.
    clear H.
    pose proof (f_equal (@List.hd Z 0) H') as H0.
    pose proof (f_equal (@List.tl Z) H') as H.
    cbn [List.hd List.tl] in H0, H.
    split; [exact H0|].
    destruct (IH r (S i) H) as [_ Hlast].
    rewrite last_cons, Hlast. unfold len. cbn [List.length]. lia.
Qed.

Lemma year_mask_convex (dir_year : Z) :
  convex (fun r => g_year r =? dir_year).
Proof.
  intros a b c Hab Hbc Ha Hc.
  apply g_key_leb_spec in Hab, Hbc. apply Z.eqb_eq in Ha, Hc.
  apply Z.eqb_eq. lia.
Qed.

Lemma month_mask_convex (y m : Z) :
  convex (fun r => (g_year r =? y) && (g_month r =? m)).
Proof.
  intros a b c Hab Hbc Ha Hc.
  apply g_key_leb_spec in Hab, Hbc.
  apply andb_true_iff in Ha, Hc. rewrite !Z.eqb_eq in Ha, Hc.
  apply andb_true_iff. rewrite !Z.eqb_eq. lia.
Qed.

(** The index bookkeeping of a selection that is a block of a table in
    Gregorian order labelled 0..n-1. *)
Lemma index_tracking_block (p : row -> bool) (df : DataFrame) :
  convex p -> sorted_by_gregorian df = true -> range_index df ->
  forall result first_index span,
    HijriDateMapper.index_tracking (filter p df)
    = (result, first_index, span) ->
    result <> [] ->
    exists first : nat,
      first_index = Some (Z.of_nat first) /\
      map idx result = map Z.of_nat (seq first (List.length result)) /\
      span = len result - 1.
Proof.
  intros Hp Hs Hr result first_index span Hq Hne.
  destruct (convex_filter_block p df Hp Hs) as (before & after & Hdf & _).
  rewrite Hdf in Hr. apply range_index_block in Hr.
  unfold HijriDateMapper.index_tracking in Hq.
  destruct (filter p df) as [|r0 rest] eqn:Hsel.
  - injection Hq as <- _ _. now destruct Hne.
  - injection Hq as <- <- <-. exists (List.length before).
    cbn [List.length] in Hr.
    destruct (last_of_consecutive rest r0 _ Hr) as [H0 Hlast].
    unfold index_first, index_last. rewrite H0, Hlast.
    repeat split; [exact Hr|]. unfold len. cbn [List.length]. lia.
Qed.

Lemma sorted_cons (a : row) (l : DataFrame) :
  (forall b, In b l -> g_key_leb a b = true) ->
  sorted_by_gregorian l = true -> sorted_by_gregorian (a :: l) = true.
Proof.
  intros Hle Hl. destruct l as [|b l]; [reflexivity|].
  cbn [sorted_by_gregorian]. apply andb_true_iff. split.
  - apply Hle. now left.
  - exact Hl.
Qed.

Lemma sorted_filter (p : row -> bool) (l : DataFrame) :
  sorted_by_gregorian l = true -> sorted_by_gregorian (filter p l) = true.
Proof.
  induction l as [|a l IH]; intros Hs; [reflexivity|].
  pose proof (sorted_tail _ _ Hs) as Hl.
  cbn [filter]. destruct (p a); [|now apply IH].
  apply sorted_cons; [|now apply IH].
  intros b Hb. apply filter_In in Hb.
  apply sorted_head_least with l; [exact Hs|apply Hb].
Qed.

Lemma rows_holding_filter (p : row -> bool) (l : DataFrame) :
  rows_holding p l = List.length (filter p l).
Proof.
  induction l as [|a l IH]; [reflexivity|].
  cbn [rows_holding filter]. rewrite IH. now destruct (p a).
Qed.

Lemma in_gregorian_range_convex (y : Z) (month : option Z) :
  convex (in_gregorian_range y month).
Proof.
  intros a b c Hab Hbc Ha Hc. unfold in_gregorian_range in *.
  apply g_key_leb_spec in Hab, Hbc.
  apply andb_true_iff in Ha, Hc. destruct Ha as [Ha Ha'], Hc as [Hc Hc'].
  apply Z.eqb_eq in Ha, Hc. apply andb_true_iff.
  destruct month as [m|].
  - apply Z.eqb_eq in Ha', Hc'. rewrite !Z.eqb_eq. lia.
  - rewrite Z.eqb_eq. split; [lia|reflexivity].
Qed.

End SortedTable.

(** * The claims about classification and lookups *)

Section LookupClaims.

Import HijriDateMapper.

Lemma filter_no_match {A : Type} (p : A -> bool) (l : list A) :
  existsb p l = false -> filter p l = [].
Proof.
  induction l as [|a l IH]; [reflexivity|].
  cbn. intros H. apply orb_false_iff in H. destruct H as [-> H]. auto.
Qed.

(** What [HijriDateMapper.get_dtype] answers for each of the eight shapes
    of a query: the day is looked at only when a month is given. *)
Lemma get_dtype_by_shape (year month day : option Z) :
  get_dtype year month day =
  match year, month, day with
  | Some _, Some _, Some _ => "date"
  | Some _, Some _, None => "month_range"
  | Some _, None, _ => "year_range"
  | None, _, _ => "invalid"
  end%string.
Proof. destruct year, month, day; reflexivity. Qed.

(** C4. Classification of a query by the components that are present.
    A day given without a month is classified as a year range by
    [HijriDateMapper.get_dtype], and the lookup then answers with every row
    of the year; the sibling classifier in [conversion.py] answers [None]
    for the same query and the factory [idate] raises. *)
Theorem day_without_month_is_year_range :
  get_dtype (Some 2024) None (Some 15) = "year_range"%string /\
  DateMapping.get_dtype (Some 2024) None (Some 15) = None /\
  idate 2024 None (Some 15) = inl MonthRequired /\
  (let '(result, _, _) := to_hijri sample_data (Some 2024) None (Some 15) in
   map g_day result) = [15; 16; 17; 10; 11].
Proof. repeat split; reflexivity. Qed.

(** C6. A query that no row matches is answered with no rows, no first
    position and span zero.  A query that names a day without a month is
    classified as a year range, so it is answered with all the rows of the
    year although no row matches it: for the 30th of an unnamed month of
    2024, a day that no row of the sample carries, [to_hijri] returns five
    rows, and [to_greg] does the same for the Hijri year 1445.  The sibling
    classifier answers [None] for this query. *)
Theorem day_without_month_query_returns_rows :
  existsb (fun r => g_day r =? 30) sample_data = false /\
  existsb (fun r => h_day r =? 30) sample_data = false /\
  DateMapping.get_dtype (Some 2024) None (Some 30) = None /\
  to_hijri sample_data (Some 2024) None (Some 30)
  = (firstn 5 sample_data, Some 0, 4) /\
  to_greg sample_data (Some 1445) None (Some 30)
  = (firstn 5 sample_data, Some 0, 4) /\
  len (firstn 5 sample_data) = 5.
Proof. repeat split; reflexivity. Qed.

(** C7. On a table in ascending Gregorian order whose labels are the
    positions 0..n-1, a Gregorian month or year query returns the rows that
    the table holds for that month or year, in the order of the table and so
    in ascending Gregorian order; when there is at least one, they stand at
    consecutive positions from the first index on, so that the span is the
    count less one; a month or year for which the table holds exactly three
    rows gives count 3 and span 2. *)
Theorem range_query_is_contiguous (df : DataFrame) (y : Z)
    (month : option Z) :
  sorted_by_gregorian df = true ->
  range_index df ->
  forall result first_index span,
    to_hijri df (Some y) month None = (result, first_index, span) ->
    result = filter (in_gregorian_range y month) df /\
    sorted_by_gregorian result = true /\
    (result <> [] ->
     exists first : nat,
       first_index = Some (Z.of_nat first) /\
       map idx result = map Z.of_nat (seq first (List.length result)) /\
       span = len result - 1) /\
    (rows_holding (in_gregorian_range y month) df = 3%nat ->
     len result = 3 /\ span = 2).
Proof.
  intros Hs Hr result first_index span Hq.
  change (to_hijri df (Some y) month None)
    with (query GregorianToHijri df (Some y) month None) in Hq.
  rewrite query_selects_matches in Hq.
  assert (Hsel :
    filter (matches GregorianToHijri (get_dtype (Some y) month None)
              (Some y) month None) df
    = filter (in_gregorian_range y month) df).
  { apply filter_ext. intros r. unfold in_gregorian_range.
    destruct month as [m|]; cbn; [reflexivity|].
    now rewrite andb_true_r. }
  rewrite Hsel in Hq. clear Hsel.
  assert (Hrows : result = filter (in_gregorian_range y month) df).
  { unfold index_tracking in Hq.
    destruct (filter _ df); now injection Hq as <- _ _. }
  assert (Hblock :
    result <> [] ->
    exists first : nat,
      first_index = Some (Z.of_nat first) /\
      map idx result = map Z.of_nat (seq first (List.length result)) /\
      span = len result - 1).
  { intros Hne.
    exact (index_tracking_block _ df (in_gregorian_range_convex y month)
             Hs Hr _ _ _ Hq Hne). }
  split; [exact Hrows|].
  split; [rewrite Hrows; now apply sorted_filter|].
  split; [exact Hblock|].
  intros Hthree. rewrite rows_holding_filter, <- Hrows in Hthree.
  assert (Hne : result <> []) by (intros ->; discriminate Hthree).
  destruct (Hblock Hne) as (first & _ & _ & Hspan).
  unfold len in *. rewrite Hthree in *. split; [reflexivity|lia].
Qed.

Lemma range_query_is_contiguous_witness :
  firstn 3 sample_data = filter (in_gregorian_range 2024 (Some 1)) sample_data
  /\
  sorted_by_gregorian (firstn 3 sample_data) = true /\
  (firstn 3 sample_data <> [] ->
   exists first : nat,
     Some 0 = Some (Z.of_nat first) /\
     map idx (firstn 3 sample_data)
     = map Z.of_nat (seq first (List.length (firstn 3 sample_data))) /\
     2 = len (firstn 3 sample_data) - 1) /\
  (rows_holding (in_gregorian_range 2024 (Some 1)) sample_data = 3%nat ->
   len (firstn 3 sample_data) = 3 /\ 2 = 2).
Proof.
  apply (range_query_is_contiguous sample_data 2024 (Some 1)).
  - reflexivity.
  - reflexivity.
  - reflexivity.
Defined.

(** C8. [get_match_indexes] reports the first position, the last position
    and the count of the rows that the lookup of the same direction selects,
    and nothing on no match or an invalid query.  On a query that names a
    day without a month it reports, like the lookup, the rows of the whole
    year: positions 0 to 4 and count 5 on the sample, in both directions,
    where the sibling classifier finds the query invalid. *)
Theorem day_without_month_indexes :
  DateMapping.get_dtype (Some 2024) None (Some 15) = None /\
  get_match_indexes sample_data (Some 2024) None (Some 15) "gregorian"
  = (Some 0, Some 4, 5) /\
  to_hijri sample_data (Some 2024) None (Some 15)
  = (firstn 5 sample_data, Some 0, 4) /\
  DateMapping.get_dtype (Some 1445) None (Some 15) = None /\
  get_match_indexes sample_data (Some 1445) None (Some 15) "hijri"
  = (Some 0, Some 4, 5) /\
  to_greg sample_data (Some 1445) None (Some 15)
  = (firstn 5 sample_data, Some 0, 4).
Proof. repeat split; reflexivity. Qed.

End LookupClaims.

(** * Further properties of the date arithmetic *)

Section DateArithmeticLaws.

Import HijriDate.

Lemma from_ordinal_day_of_year (n : Z) :
  exists x, _from_ordinal n = inr x /\ valid x /\ day_of_year x = n mod 354
            /\ _to_ordinal x = n.
Proof.
  eexists. split; [apply from_ordinal_closed_form|].
  assert (Hr : 0 <= n mod 354 < 354) by (apply Z.mod_pos_bound; lia).
  assert (Hq : 0 <= n mod 354 / 30 <= 11).
  { split; [apply Z.div_pos; lia|].
    apply Z.lt_succ_r, Z.div_lt_upper_bound; lia. }
  assert (Hd : 0 <= n mod 354 mod 30 < 30) by (apply Z.mod_pos_bound; lia).
  pose proof (Z.div_mod n 354 ltac:(lia)) as H1.
  pose proof (Z.div_mod (n mod 354) 30 ltac:(lia)) as H2.
  unfold valid, day_of_year, _to_ordinal; cbn [year month day].
  repeat split; lia.
Qed.

Lemma to_ordinal_split (d : t) :
  _to_ordinal d = (year d - 1) * 354 + day_of_year d.
Proof. unfold _to_ordinal, day_of_year. lia. Qed.

(** X1. The overflow handling of [_from_ordinal] is never reached: for every
    integer the answer is the date read off the quotients and remainders. *)
Theorem from_ordinal_never_overflows (n : Z) :
  _from_ordinal n
  = inr (mk (n / 354 + 1) (n mod 354 / 30 + 1) (n mod 354 mod 30 + 1)).
Proof. apply from_ordinal_closed_form. Qed.

(** X2. A valid date is recovered from its ordinal exactly when it lies no later
    than the 24th of the twelfth month. *)
Theorem roundtrip_iff_early (d : t) :
  valid d ->
  (_from_ordinal (_to_ordinal d) = inr d <-> day_of_year d < 354).
Proof.
  intros V. split.
  - intros H.
    destruct (from_ordinal_day_of_year (_to_ordinal d))
      as (x & Hx & _ & Hdoy & _).
    rewrite Hx in H. injection H as ->. rewrite Hdoy.
    apply Z.mod_pos_bound. lia.
  - now apply from_ordinal_to_ordinal_early.
Qed.

Lemma roundtrip_iff_early_witness :
  _from_ordinal (_to_ordinal (mk 1447 6 15)) = inr (mk 1447 6 15)
  <-> day_of_year (mk 1447 6 15) < 354.
Proof.
  apply (roundtrip_iff_early (mk 1447 6 15)).
  unfold valid; simpl; lia.
Defined.

(** X3. No sum or difference of a date and a duration falls on the 25th to the
    30th of the twelfth month: the result has the offset
    [(_to_ordinal d + n) mod 354] within its year. *)
Theorem results_avoid_year_end (d : t) (td : iTimedelta) :
  (exists x, __add__ d td = inr x /\
             day_of_year x = (_to_ordinal d + days td) mod 354 /\
             day_of_year x < 354) /\
  (exists x, __sub__timedelta d td = inr x /\
             day_of_year x = (_to_ordinal d - days td) mod 354 /\
             day_of_year x < 354).
Proof.
  unfold __add__, __sub__timedelta, _add_days. split.
  - destruct (from_ordinal_day_of_year (_to_ordinal d + days td))
      as (x & Hx & _ & Hdoy & _).
    exists x. repeat split; [exact Hx|exact Hdoy|].
    rewrite Hdoy. apply Z.mod_pos_bound. lia.
  - destruct (from_ordinal_day_of_year (_to_ordinal d + - days td))
      as (x & Hx & _ & Hdoy & _).
    exists x. rewrite Z.add_opp_r in Hdoy.
    repeat split; [exact Hx|exact Hdoy|].
    rewrite Hdoy. apply Z.mod_pos_bound. lia.
Qed.

(** X4. Adding a duration to a date and subtracting the date from the sum gives
    the duration back, for every date and every duration. *)
Theorem sum_minus_date_is_duration (d : t) (td : iTimedelta) :
  exists x, __add__ d td = inr x /\ __sub__date x d = td.
Proof.
  unfold __add__, _add_days.
  destruct (from_ordinal_day_of_year (_to_ordinal d + days td))
    as (x & Hx & _ & _ & Hord).
  exists x. split; [exact Hx|].
  unfold __sub__date. rewrite Hord. destruct td as [n]; cbn [days].
  f_equal. lia.
Qed.

(** X5. Two additions in a row add the sum of the durations, and adding then
    subtracting one duration is adding the zero duration. *)
Theorem additions_compose (d : t) (a b : iTimedelta) :
  (x <- __add__ d a ;; __add__ x b) = __add__ d (Timedelta.__add__ a b) /\
  (x <- __add__ d a ;; __sub__timedelta x a) = __add__ d (mk_iTimedelta 0).
Proof.
  unfold __add__, __sub__timedelta, _add_days.
  destruct (from_ordinal_day_of_year (_to_ordinal d + days a))
    as (x & Hx & _ & _ & Hord).
  rewrite Hx. cbn [bind]. rewrite Hord.
  unfold Timedelta.__add__; cbn [days].
  split; f_equal; lia.
Qed.

(** X6. Differences of dates: swapping the operands negates the duration, and
    differences along a chain of dates add up. *)
Theorem date_differences (d1 d2 d3 : t) :
  __sub__date d2 d1 = Timedelta.__neg__ (__sub__date d1 d2) /\
  Timedelta.__add__ (__sub__date d1 d2) (__sub__date d2 d3)
  = __sub__date d1 d3 /\
  Timedelta.__bool__ (__sub__date d1 d1) = false.
Proof.
  unfold __sub__date, Timedelta.__neg__, Timedelta.__add__,
    Timedelta.__bool__; cbn [days].
  repeat split; first [f_equal; lia | rewrite Z.sub_diag; reflexivity].
Qed.

End DateArithmeticLaws.

(** * Comparison of dates *)

Section DateOrder.

Import HijriDate.

Lemma lt_spec (a b : t) :
  __lt__ a b = true <->
  year a < year b \/
  year a = year b /\
  (month a < month b \/ month a = month b /\ day a < day b).
Proof.
  unfold __lt__.
  destruct (year a =? year b) eqn:Hy; cbn [negb];
    [apply Z.eqb_eq in Hy|apply Z.eqb_neq in Hy].
  - destruct (month a =? month b) eqn:Hm; cbn [negb];
      [apply Z.eqb_eq in Hm|apply Z.eqb_neq in Hm];
      rewrite Z.ltb_lt; lia.
  - rewrite Z.ltb_lt. lia.
Qed.

Lemma eq_spec (a b : t) :
  __eq__ a b = true <->
  year a = year b /\ month a = month b /\ day a = day b.
Proof.
  unfold __eq__. rewrite !andb_true_iff, !Z.eqb_eq. tauto.
Qed.

Lemma eq_true_iff (a b : t) : __eq__ a b = true <-> a = b.
Proof.
  rewrite eq_spec. destruct a, b; cbn [year month day]. split.
  - intros (-> & -> & ->). reflexivity.
  - intros [= -> -> ->]. auto.
Qed.

Ltac order_facts :=
  repeat match goal with
    | H : __lt__ _ _ = true |- _ => apply lt_spec in H
    | H : __lt__ _ _ = false |- _ =>
        apply not_true_iff_false in H; rewrite lt_spec in H
    | H : __eq__ _ _ = true |- _ => apply eq_spec in H
    | H : __eq__ _ _ = false |- _ =>
        apply not_true_iff_false in H; rewrite eq_spec in H
    end.

(** X7. [__lt__] is a strict total order on dates and [__eq__] is equality of the
    three fields: no date precedes itself, precedence is transitive and
    asymmetric, and two dates neither of which precedes the other are
    equal. *)
Theorem lt_is_strict_total_order (a b c : t) :
  __lt__ a a = false /\
  (__lt__ a b = true -> __lt__ b c = true -> __lt__ a c = true) /\
  (__lt__ a b = true -> __lt__ b a = false) /\
  (__lt__ a b = false -> __lt__ b a = false -> __eq__ a b = true) /\
  (__eq__ a b = true <-> a = b).
Proof.
  split; [apply not_true_iff_false; rewrite lt_spec; lia|].
  split; [intros H1 H2; order_facts; apply lt_spec; lia|].
  split; [intros H1; apply not_true_iff_false; order_facts;
          rewrite lt_spec; lia|].
  split; [intros H1 H2; order_facts; apply eq_spec; lia|].
  apply eq_true_iff.
Qed.

Lemma lt_is_strict_total_order_witness :
  __lt__ (mk 1447 6 15) (mk 1448 1 1) = true /\
  __lt__ (mk 1448 1 1) (mk 1447 6 20) = false /\
  __eq__ (mk 1447 6 15) (mk 1447 6 15) = true.
Proof.
  destruct (lt_is_strict_total_order (mk 1447 6 15) (mk 1447 6 20)
              (mk 1448 1 1)) as (_ & Htrans & _).
  destruct (lt_is_strict_total_order (mk 1447 6 20) (mk 1448 1 1)
              (mk 1448 1 1)) as (_ & _ & Hasym & _).
  destruct (lt_is_strict_total_order (mk 1447 6 15) (mk 1447 6 15)
              (mk 1447 6 15)) as (_ & _ & _ & Heq & _).
  split; [apply Htrans; reflexivity|].
  split; [apply Hasym; reflexivity|].
  apply Heq; reflexivity.
Defined.

(** X8. The comparisons derived from [__lt__] and [__eq__] are those of the same
    order: [a > b] is [b < a], [a <= b] is [not (b < a)], and [a >= b] is
    [b <= a]. *)
Theorem derived_comparisons_agree (a b : t) :
  HijriDateOrdering.__gt__ a b = __lt__ b a /\
  HijriDateOrdering.__le__ a b = negb (__lt__ b a) /\
  HijriDateOrdering.__ge__ a b = HijriDateOrdering.__le__ b a.
Proof.
  unfold HijriDateOrdering.__gt__, HijriDateOrdering.__le__,
    HijriDateOrdering.__ge__, HijriDateOrdering.__ne__.
  destruct (__lt__ a b) eqn:Hab, (__lt__ b a) eqn:Hba,
    (__eq__ a b) eqn:Heab, (__eq__ b a) eqn:Heba; cbn;
    repeat split; try reflexivity; exfalso; order_facts; lia.
Qed.

(** X9. Between valid dates of one year, or valid dates none of which lies after
    the 24th of the twelfth month, the order of the dates is the order of
    their ordinals. *)
Theorem order_agrees_with_ordinal (d1 d2 : t) :
  valid d1 -> valid d2 ->
  year d1 = year d2 \/ (day_of_year d1 < 354 /\ day_of_year d2 < 354) ->
  (__lt__ d1 d2 = true <-> _to_ordinal d1 < _to_ordinal d2).
Proof.
  intros V1 V2 [Hy|[H1 H2]].
  - now apply lt_iff_ordinal_same_year.
  - now apply lt_iff_ordinal_early.
Qed.

Lemma order_agrees_with_ordinal_witness :
  __lt__ (mk 1447 12 24) (mk 1448 1 1) = true
  <-> _to_ordinal (mk 1447 12 24) < _to_ordinal (mk 1448 1 1).
Proof.
  apply (order_agrees_with_ordinal (mk 1447 12 24) (mk 1448 1 1)).
  - unfold valid; simpl; lia.
  - unfold valid; simpl; lia.
  - right. unfold day_of_year; simpl; lia.
Defined.

(** X10. From a valid date no later than the 24th of the twelfth month, adding a
    positive number of days gives a later date and adding a negative number
    an earlier one. *)
Theorem addition_is_monotone (d : t) (n : Z) :
  valid d -> day_of_year d < 354 ->
  exists x, __add__ d (mk_iTimedelta n) = inr x /\
            (0 < n -> __lt__ d x = true) /\
            (n < 0 -> __lt__ x d = true).
Proof.
  intros V Hearly. unfold __add__, _add_days; cbn [days].
  destruct (from_ordinal_day_of_year (_to_ordinal d + n))
    as (x & Hx & Vx & Hdoy & Hord).
  assert (Hxearly : day_of_year x < 354)
    by (rewrite Hdoy; apply Z.mod_pos_bound; lia).
  exists x. split; [exact Hx|]. split; intros Hn.
  - apply lt_iff_ordinal_early; try assumption. lia.
  - apply lt_iff_ordinal_early; try assumption. lia.
Qed.

Lemma addition_is_monotone_witness :
  exists x, __add__ (mk 1447 6 15) (mk_iTimedelta 1000) = inr x /\
            (0 < 1000 -> __lt__ (mk 1447 6 15) x = true) /\
            (1000 < 0 -> __lt__ x (mk 1447 6 15) = true).
Proof.
  apply (addition_is_monotone (mk 1447 6 15) 1000).
  - unfold valid; simpl; lia.
  - unfold day_of_year; simpl; lia.
Defined.

(** X11. The day after a valid date no later than the 24th of the twelfth month:
    the next day of the month, the first of the next month after a 30th, and
    the first day of the next year after the 24th of the twelfth month. *)
Theorem next_day (d : t) :
  valid d -> day_of_year d < 354 ->
  __add__ d (mk_iTimedelta 1)
  = inr (if (month d =? 12) && (day d =? 24) then mk (year d + 1) 1 1
         else if day d =? 30 then mk (year d) (month d + 1) 1
         else mk (year d) (month d) (day d + 1)).
Proof.
  intros [Hm Hd] Hearly. unfold day_of_year in Hearly.
  unfold __add__, _add_days; cbn [days].
  destruct ((month d =? 12) && (day d =? 24)) eqn:Hend.
  - apply andb_true_iff in Hend. rewrite !Z.eqb_eq in Hend.
    replace (_to_ordinal d + 1) with (_to_ordinal (mk (year d + 1) 1 1))
      by (unfold _to_ordinal; cbn [year month day]; lia).
    apply from_ordinal_to_ordinal_early;
      unfold valid, day_of_year; cbn [year month day]; lia.
  - apply andb_false_iff in Hend. rewrite !Z.eqb_neq in Hend.
    destruct (day d =? 30) eqn:H30;
      [apply Z.eqb_eq in H30|apply Z.eqb_neq in H30].
    + replace (_to_ordinal d + 1)
        with (_to_ordinal (mk (year d) (month d + 1) 1))
        by (unfold _to_ordinal; cbn [year month day]; lia).
      apply from_ordinal_to_ordinal_early;
        unfold valid, day_of_year; cbn [year month day]; lia.
    + replace (_to_ordinal d + 1)
        with (_to_ordinal (mk (year d) (month d) (day d + 1)))
        by (unfold _to_ordinal; cbn [year month day]; lia).
      apply from_ordinal_to_ordinal_early;
        unfold valid, day_of_year; cbn [year month day]; lia.
Qed.

Lemma next_day_witness :
  __add__ (mk 1447 12 24) (mk_iTimedelta 1) = inr (mk 1448 1 1).
Proof.
  apply (next_day (mk 1447 12 24)).
  - unfold valid; simpl; lia.
  - unfold day_of_year; simpl; lia.
Defined.

(** X12. Where the ranges of [idate] end: a month range of the first eleven
    months ends on the first of the next month, the range of the twelfth
    month on the seventh day of the next year, and a year range on the first
    day of the next year. *)
Theorem range_ends (y : Z) :
  (forall m, 1 <= m <= 11 ->
     exists start duration,
       idate y (Some m) None = inr (Range start duration) /\
       __add__ start duration = inr (mk y (m + 1) 1)) /\
  (exists start duration,
     idate y (Some 12) None = inr (Range start duration) /\
     __add__ start duration = inr (mk (y + 1) 1 7)) /\
  (exists start duration,
     idate y None None = inr (Range start duration) /\
     __add__ start duration = inr (mk (y + 1) 1 1)).
Proof.
  split; [|split].
  - intros m Hm. exists (mk y m 1), (mk_iTimedelta 30). split.
    + unfold idate. rewrite init_in_range by lia. reflexivity.
    + unfold __add__, _add_days; cbn [days].
      replace (_to_ordinal (mk y m 1) + 30)
        with (_to_ordinal (mk y (m + 1) 1))
        by (unfold _to_ordinal; cbn [year month day]; lia).
      apply from_ordinal_to_ordinal_early;
        unfold valid, day_of_year; cbn [year month day]; lia.
  - exists (mk y 12 1), (mk_iTimedelta 30). split; [reflexivity|].
    unfold __add__, _add_days; cbn [days].
    rewrite from_ordinal_closed_form.
    unfold _to_ordinal; cbn [year month day].
    replace ((y - 1) * 354 + (12 - 1) * 30 + (1 - 1) + 30)
      with (6 + y * 354) by lia.
    rewrite Z.div_add, Z.mod_add by lia. reflexivity.
  - exists (mk y 1 1), (mk_iTimedelta 354). split; [reflexivity|].
    unfold __add__, _add_days; cbn [days].
    replace (_to_ordinal (mk y 1 1) + 354)
      with (_to_ordinal (mk (y + 1) 1 1))
      by (unfold _to_ordinal; cbn [year month day]; lia).
    apply from_ordinal_to_ordinal_early;
      unfold valid, day_of_year; cbn [year month day]; lia.
Qed.

Lemma range_ends_witness :
  exists start duration,
    idate 1447 (Some 2) None = inr (Range start duration) /\
    __add__ start duration = inr (mk 1447 (2 + 1) 1).
Proof.
  destruct (range_ends 1447) as (Hmonth & _).
  apply (Hmonth 2). lia.
Defined.

(** X13. Durations form a group under [+] with [-] as inverse, the absolute value
    ignores the sign and is never negative, a duration is false exactly when
    it is zero days, and multiplication by an integer distributes over
    [+]. *)
Theorem timedelta_laws (a b : iTimedelta) (k : Z) :
  Timedelta.__sub__ (Timedelta.__add__ a b) b = a /\
  Timedelta.__add__ a b = Timedelta.__add__ b a /\
  Timedelta.__add__ a (Timedelta.__neg__ a) = mk_iTimedelta 0 /\
  Timedelta.__abs__ (Timedelta.__neg__ a) = Timedelta.__abs__ a /\
  Timedelta.__lt__ (Timedelta.__abs__ a) (mk_iTimedelta 0) = false /\
  Timedelta.__bool__ a = negb (Timedelta.__eq__ a (mk_iTimedelta 0)) /\
  Timedelta.__mul__ (Timedelta.__add__ a b) k
  = Timedelta.__add__ (Timedelta.__mul__ a k) (Timedelta.__mul__ b k).
Proof.
  destruct a as [x], b as [z].
  unfold Timedelta.__sub__, Timedelta.__add__, Timedelta.__neg__,
    Timedelta.__abs__, Timedelta.__lt__, Timedelta.__bool__,
    Timedelta.__eq__, Timedelta.__mul__; cbn [days].
  repeat split; first [f_equal; lia | apply Z.ltb_ge; lia].
Qed.

End DateOrder.

(** * Further properties of the lookups *)

Section LookupLaws.

Import HijriDateMapper.

Lemma query_rows (dir : direction) (df : DataFrame)
    (year month day : option Z) :
  rows (query dir df year month day)
  = filter (matches dir (get_dtype year month day) year month day) df.
Proof.
  rewrite query_selects_matches. unfold index_tracking, rows.
  now destruct (filter _ df).
Qed.

(** X25. When the table holds no row with the queried date, month or year
    in the queried calendar, the lookup answers no rows, no first index and
    span zero, and [get_match_indexes] answers no positions and count zero;
    a query without a year is answered so on every table. *)
Theorem no_match_answers_nothing (dir : direction) (df : DataFrame)
    (y m d : Z) (date_type : string) :
  names_direction date_type dir = true ->
  (existsb (fun r => (year_col dir r =? y) && (month_col dir r =? m)
                     && (day_col dir r =? d)) df = false ->
   query dir df (Some y) (Some m) (Some d) = ([], None, 0) /\
   get_match_indexes df (Some y) (Some m) (Some d) date_type
   = (None, None, 0)) /\
  (existsb (fun r => (year_col dir r =? y) && (month_col dir r =? m)) df
   = false ->
   query dir df (Some y) (Some m) None = ([], None, 0) /\
   get_match_indexes df (Some y) (Some m) None date_type = (None, None, 0))
  /\
  (existsb (fun r => year_col dir r =? y) df = false ->
   query dir df (Some y) None None = ([], None, 0) /\
   get_match_indexes df (Some y) None None date_type = (None, None, 0)) /\
  (forall month day,
     query dir df None month day = ([], None, 0) /\
     get_match_indexes df None month day date_type = (None, None, 0)).
Proof.
  intros Hdir.
  split; [|split; [|split]].
  - intros Hnone.
    rewrite query_selects_matches,
      (get_match_indexes_selects_matches dir) by exact Hdir.
    change (filter (matches dir (get_dtype (Some y) (Some m) (Some d))
                      (Some y) (Some m) (Some d)) df)
      with (filter (fun r => (year_col dir r =? y) && (month_col dir r =? m)
                             && (day_col dir r =? d)) df).
    rewrite (filter_no_match _ _ Hnone). split; reflexivity.
  - intros Hnone.
    rewrite query_selects_matches,
      (get_match_indexes_selects_matches dir) by exact Hdir.
    change (filter (matches dir (get_dtype (Some y) (Some m) None)
                      (Some y) (Some m) None) df)
      with (filter (fun r => (year_col dir r =? y) && (month_col dir r =? m))
              df).
    rewrite (filter_no_match _ _ Hnone). split; reflexivity.
  - intros Hnone.
    rewrite query_selects_matches,
      (get_match_indexes_selects_matches dir) by exact Hdir.
    change (filter (matches dir (get_dtype (Some y) None None)
                      (Some y) None None) df)
      with (filter (fun r => year_col dir r =? y) df).
    rewrite (filter_no_match _ _ Hnone). split; reflexivity.
  - intros month day.
    rewrite query_selects_matches,
      (get_match_indexes_selects_matches dir) by exact Hdir.
    replace (filter _ df) with (@nil row);
      [split; reflexivity|].
    symmetry. destruct month, day; cbn; apply filter_none.
Qed.

Lemma no_match_answers_nothing_witness :
  query GregorianToHijri sample_data (Some 2030) (Some 12) (Some 25)
  = ([], None, 0) /\
  get_match_indexes sample_data (Some 2030) (Some 12) (Some 25) "gregorian"
  = (None, None, 0).
Proof.
  destruct (no_match_answers_nothing GregorianToHijri sample_data
              2030 12 25 "gregorian" eq_refl) as (Hexact & _).
  apply Hexact. reflexivity.
Defined.

(** X26. For every table, query and direction, [get_match_indexes] reports
    the first label, the last label and the number of the rows that the
    lookup of the same direction selects: the first is the lookup's first
    index and the last is the first plus the span; when the lookup selects
    nothing, both report nothing. *)
Theorem get_match_indexes_agrees_with_query (dir : direction)
    (df : DataFrame) (year month day : option Z) (date_type : string) :
  names_direction date_type dir = true ->
  let '(result, first_index, span) := query dir df year month day in
  get_match_indexes df year month day date_type = positions result /\
  get_match_indexes df year month day date_type
  = (first_index, option_map (fun first => first + span) first_index,
     len result) /\
  (result = [] ->
   get_match_indexes df year month day date_type = (None, None, 0) /\
   first_index = None).
Proof.
  intros Hdir.
  rewrite query_selects_matches.
  rewrite (get_match_indexes_selects_matches dir) by exact Hdir.
  destruct (filter _ df) as [|r0 rest]; cbn.
  - auto.
  - unfold index_first, index_last, len. cbn [List.length].
    repeat split; try discriminate.
    do 2 f_equal. f_equal. lia.
Qed.

Lemma get_match_indexes_agrees_with_query_witness :
  let '(result, first_index, span) :=
    query HijriToGregorian sample_data (Some 1445) (Some 7) None in
  get_match_indexes sample_data (Some 1445) (Some 7) None "hijri"
  = positions result /\
  get_match_indexes sample_data (Some 1445) (Some 7) None "hijri"
  = (first_index, option_map (fun first => first + span) first_index,
     len result) /\
  (result = [] ->
   get_match_indexes sample_data (Some 1445) (Some 7) None "hijri"
   = (None, None, 0) /\
   first_index = None).
Proof.
  apply (get_match_indexes_agrees_with_query
           HijriToGregorian sample_data (Some 1445) (Some 7) None "hijri").
  reflexivity.
Defined.

(** X14. A lookup returns the rows of the table whose date, month or year in the
    queried calendar is the one asked for, and no row when the year is
    missing. *)
Theorem lookup_returns_the_matching_rows (dir : direction) (df : DataFrame)
    (y m d : Z) (r : row) :
  (In r (rows (query dir df (Some y) (Some m) (Some d))) <->
   In r df /\ year_col dir r = y /\ month_col dir r = m /\ day_col dir r = d)
  /\
  (In r (rows (query dir df (Some y) (Some m) None)) <->
   In r df /\ year_col dir r = y /\ month_col dir r = m) /\
  (In r (rows (query dir df (Some y) None None)) <->
   In r df /\ year_col dir r = y) /\
  (forall month day, rows (query dir df None month day) = []).
Proof.
  rewrite !query_rows, !filter_In. unfold matches; cbn.
  rewrite !andb_true_iff, !Z.eqb_eq.
  repeat split; try tauto.
  intros month day. rewrite query_rows.
  destruct month, day; cbn; apply filter_none.
Qed.

Lemma lookup_returns_the_matching_rows_witness :
  In (mk_row 3 2024 2 10 1445 8 1 "ISNA")
     (rows (query GregorianToHijri sample_data (Some 2024) (Some 2) None)).
Proof.
  destruct (lookup_returns_the_matching_rows GregorianToHijri sample_data
              2024 2 10 (mk_row 3 2024 2 10 1445 8 1 "ISNA"))
    as (_ & Hmonth & _).
  apply (proj2 Hmonth). simpl. tauto.
Defined.

(** X15. Every row of the table is found by the exact query for its own date, in
    both directions; so the Hijri date of a row found for a Gregorian date
    leads back, through [to_greg], to a row with that Gregorian date. *)
Theorem conversion_round_trip (df : DataFrame) (r : row) :
  In r df ->
  In r (rows (to_hijri df (Some (g_year r)) (Some (g_month r))
                (Some (g_day r)))) /\
  In r (rows (to_greg df (Some (h_year r)) (Some (h_month r))
                (Some (h_day r)))) /\
  (forall y m d,
     In r (rows (to_hijri df (Some y) (Some m) (Some d))) ->
     g_date r = (y, m, d)).
Proof.
  intros Hin.
  change to_hijri with (query GregorianToHijri).
  change to_greg with (query HijriToGregorian).
  rewrite !query_rows. repeat split.
  - apply filter_In. split; [exact Hin|].
    unfold matches; cbn. now rewrite !Z.eqb_refl.
  - apply filter_In. split; [exact Hin|].
    unfold matches; cbn. now rewrite !Z.eqb_refl.
  - intros y m d H. rewrite query_rows in H.
    apply filter_In in H. destruct H as [_ H].
    unfold matches in H; cbn in H.
    apply andb_true_iff in H. destruct H as [H Hd].
    apply andb_true_iff in H. destruct H as [Hy Hm].
    apply Z.eqb_eq in Hy, Hm, Hd. unfold g_date. congruence.
Qed.

Lemma conversion_round_trip_witness :
  In (mk_row 3 2024 2 10 1445 8 1 "ISNA")
     (rows (to_greg sample_data (Some 1445) (Some 8) (Some 1))).
Proof.
  apply (conversion_round_trip sample_data (mk_row 3 2024 2 10 1445 8 1 "ISNA")).
  simpl. tauto.
Defined.

Lemma unique_date_has_no_other_match (dir : direction) (y m d : Z)
    (a : row) (l : DataFrame) :
  key dir a = (y, m, d) ->
  existsb (fun r' => date_eqb (key dir a) (key dir r')) l = false ->
  filter (matches dir "date" (Some y) (Some m) (Some d)) l = [].
Proof.
  intros Ha. rewrite Ha. clear Ha a.
  induction l as [|b l IH]; [reflexivity|].
  cbn [existsb filter]. intros H. apply orb_false_iff in H.
  destruct H as [Hb Hl].
  assert (Hmb : matches dir "date" (Some y) (Some m) (Some d) b = false).
  { unfold date_eqb, key in Hb. unfold matches; cbn.
    now rewrite (Z.eqb_sym _ y), (Z.eqb_sym _ m), (Z.eqb_sym _ d). }
  rewrite Hmb. now apply IH.
Qed.

Lemma unique_dates_exact_filter (dir : direction) (y m d : Z)
    (df : DataFrame) :
  dates_unique dir df = true ->
  (List.length
     (filter (matches dir "date" (Some y) (Some m) (Some d)) df) <= 1)%nat.
Proof.
  induction df as [|a l IH]; [cbn; lia|].
  cbn [dates_unique filter]. intros H. apply andb_true_iff in H.
  destruct H as [Ha Hl]. apply negb_true_iff in Ha.
  destruct (matches dir "date" (Some y) (Some m) (Some d) a) eqn:Hp.
  - rewrite (unique_date_has_no_other_match dir y m d a l); [cbn; lia| |exact Ha].
    unfold matches in Hp; cbn in Hp.
    apply andb_true_iff in Hp. destruct Hp as [Hp Hd].
    apply andb_true_iff in Hp. destruct Hp as [Hy Hm].
    apply Z.eqb_eq in Hy, Hm, Hd. unfold key. congruence.
  - now apply IH.
Qed.

(** X16. In a table without repeated dates in the queried calendar, an exact query
    returns at most one row; its span is zero and its first index is the
    label of that row. *)
Theorem exact_lookup_is_single (dir : direction) (df : DataFrame)
    (y m d : Z) :
  dates_unique dir df = true ->
  forall result first_index span,
    query dir df (Some y) (Some m) (Some d) = (result, first_index, span) ->
    len result <= 1 /\ span = 0 /\
    (forall r, In r result -> result = [r] /\ first_index = Some (idx r)).
Proof.
  intros Hu result first_index span Hq.
  rewrite query_selects_matches in Hq.
  pose proof (unique_dates_exact_filter dir y m d df Hu) as Hlen.
  change (get_dtype (Some y) (Some m) (Some d)) with "date"%string in Hq.
  destruct (filter _ df) as [|r0 [|r1 rest]]; cbn in Hq, Hlen;
    [| |lia]; injection Hq as <- <- <-.
  - split; [unfold len; cbn; lia|]. split; [reflexivity|intros r []].
  - unfold index_first, index_last; cbn [last].
    split; [unfold len; cbn; lia|]. split; [lia|].
    intros r [<-|[]]. split; reflexivity.
Qed.

Lemma exact_lookup_is_single_witness :
  len (firstn 1 sample_data) <= 1 /\ 0 = 0 /\
  (forall r, In r (firstn 1 sample_data) ->
             firstn 1 sample_data = [r] /\ Some 0 = Some (idx r)).
Proof.
  apply (exact_lookup_is_single GregorianToHijri sample_data 2024 1 15).
  - reflexivity.
  - reflexivity.
Defined.

End LookupLaws.

(** * Spans and slices *)

Section Spans.

Import HijriDateMapper.

Lemma ascending_tail (a : row) (l : DataFrame) :
  labels_ascending (a :: l) = true -> labels_ascending l = true.
Proof.
  destruct l as [|b l]; [reflexivity|].
  cbn [labels_ascending]. intros H. apply andb_true_iff in H. apply H.
Qed.

Lemma ascending_head_least (l : DataFrame) :
  forall a b, labels_ascending (a :: l) = true -> In b l -> idx a < idx b.
Proof.
  induction l as [|x l IH]; intros a b Ha Hin; [destruct Hin|].
  assert (Hax : idx a < idx x).
  { cbn [labels_ascending] in Ha. apply andb_true_iff in Ha.
    apply Z.ltb_lt, Ha. }
  destruct Hin as [<-|Hin]; [exact Hax|].
  apply Z.lt_trans with (idx x); [exact Hax|].
  apply IH; [|exact Hin]. now apply ascending_tail in Ha.
Qed.

Lemma ascending_cons (a : row) (l : DataFrame) :
  (forall b, In b l -> idx a < idx b) -> labels_ascending l = true ->
  labels_ascending (a :: l) = true.
Proof.
  intros Hlt Hl. destruct l as [|b l]; [reflexivity|].
  cbn [labels_ascending]. apply andb_true_iff. split.
  - apply Z.ltb_lt, Hlt. now left.
  - exact Hl.
Qed.

Lemma ascending_filter (p : row -> bool) (l : DataFrame) :
  labels_ascending l = true -> labels_ascending (filter p l) = true.
Proof.
  induction l as [|a l IH]; intros Ha; [reflexivity|].
  pose proof (ascending_tail _ _ Ha) as Hl.
  cbn [filter]. destruct (p a); [|now apply IH].
  apply ascending_cons; [|now apply IH].
  intros b Hb. apply filter_In in Hb.
  apply ascending_head_least with l; [exact Ha|apply Hb].
Qed.

Lemma ascending_extent (rest : DataFrame) :
  forall r0,
    labels_ascending (r0 :: rest) = true ->
    idx r0 + len rest <= idx (last rest r0) /\
    (forall r, In r (r0 :: rest) -> idx r0 <= idx r <= idx (last rest r0)).
Proof.
  induction rest as [|r rest IH]; intros r0 Ha.
  - cbn. split; [unfold len; cbn; lia|]. intros x [<-|[]]. lia.
  - assert (Hlt : idx r0 < idx r)
      by (apply ascending_head_least with (r :: rest); [exact Ha|now left]).
    destruct (IH r (ascending_tail _ _ Ha)) as [Hlen Hall].
    rewrite last_cons. split.
    + unfold len in *. cbn [List.length]. lia.
    + intros x [<-|Hx].
      * specialize (Hall r (or_introl eq_refl)). lia.
      * specialize (Hall x Hx). lia.
Qed.

(** X17. In a table whose labels ascend, whatever the direction and the query, the
    span is at least the number of matches less one, and every matched label
    lies between the first index and the first index plus the span. *)
Theorem span_covers_the_matches (dir : direction) (df : DataFrame)
    (year month day : option Z) :
  labels_ascending df = true ->
  forall result first span,
    query dir df year month day = (result, Some first, span) ->
    1 <= len result <= span + 1 /\
    (forall r, In r result -> first <= idx r <= first + span).
Proof.
  intros Ha result first span Hq.
  rewrite query_selects_matches in Hq.
  pose proof (ascending_filter
                (matches dir (get_dtype year month day) year month day)
                df Ha) as Hsel.
  unfold index_tracking in Hq.
  destruct (filter _ df) as [|r0 rest]; [discriminate|].
  injection Hq as <- <- <-.
  destruct (ascending_extent rest r0 Hsel) as [Hlen Hall].
  unfold index_first, index_last. split.
  - unfold len in *. cbn [List.length]. lia.
  - intros r Hr. specialize (Hall r Hr). lia.
Qed.

Lemma span_covers_the_matches_witness :
  1 <= len (firstn 3 sample_data) <= 2 + 1 /\
  (forall r, In r (firstn 3 sample_data) -> 0 <= idx r <= 0 + 2).
Proof.
  apply (span_covers_the_matches HijriToGregorian sample_data
           (Some 1445) (Some 7) None).
  - reflexivity.
  - reflexivity.
Defined.

Lemma block_slice (before sel after : DataFrame) :
  firstn (List.length sel) (skipn (List.length before) (before ++ sel ++ after))
  = sel.
Proof.
  rewrite skipn_app, skipn_all, Nat.sub_diag. cbn [skipn app].
  now rewrite firstn_app, firstn_all, Nat.sub_diag, firstn_0, app_nil_r.
Qed.

Lemma range_mask_convex (year month day : option Z) :
  get_dtype year month day = "month_range"%string \/
  get_dtype year month day = "year_range"%string ->
  convex (matches GregorianToHijri (get_dtype year month day)
            year month day).
Proof.
  intros Hdtype.
  destruct year as [y|], month as [m|], day as [d|];
    cbn in Hdtype; destruct Hdtype as [H|H]; try discriminate H.
  - exact (month_mask_convex y m).
  - exact (year_mask_convex y).
  - exact (year_mask_convex y).
Qed.

(** X18. On a table in ascending Gregorian order labelled 0..n-1, the matches of a
    Gregorian month or year query are exactly the rows of the table at
    positions first index to first index plus span. *)
Theorem matches_are_a_slice (df : DataFrame) (year month day : option Z) :
  sorted_by_gregorian df = true ->
  range_index df ->
  get_dtype year month day = "month_range"%string \/
  get_dtype year month day = "year_range"%string ->
  forall result first span,
    to_hijri df year month day = (result, Some first, span) ->
    rows_between df first span = result.
Proof.
  intros Hs Hr Hdtype result first span Hq.
  change (to_hijri df year month day)
    with (query GregorianToHijri df year month day) in Hq.
  rewrite query_selects_matches in Hq.
  destruct (convex_filter_block _ df (range_mask_convex _ _ _ Hdtype) Hs)
    as (before & after & Hdf & _).
  set (sel := filter _ df) in *.
  rewrite Hdf in Hr. apply range_index_block in Hr.
  unfold index_tracking in Hq.
  destruct sel as [|r0 rest] eqn:Hsel; [discriminate|].
  injection Hq as <- <- <-.
  cbn [List.length] in Hr.
  destruct (last_of_consecutive rest r0 _ Hr) as [H0 Hlast].
  unfold rows_between, index_first, index_last. rewrite H0, Hlast.
  replace (Z.to_nat (Z.of_nat (List.length before) + len rest
                     - Z.of_nat (List.length before) + 1))
    with (List.length (r0 :: rest))
    by (unfold len; cbn [List.length]; lia).
  rewrite Nat2Z.id. rewrite Hdf at 1. apply block_slice.
Qed.

Lemma matches_are_a_slice_witness :
  rows_between sample_data 3 1 = firstn 2 (skipn 3 sample_data).
Proof.
  apply (matches_are_a_slice sample_data (Some 2024) (Some 2) None).
  - reflexivity.
  - reflexivity.
  - left. reflexivity.
  - reflexivity.
Defined.

Lemma filter_narrower {A : Type} (p q : A -> bool) (l : list A) :
  (forall x, p x = true -> q x = true) ->
  incl (filter p l) (filter q l) /\
  (List.length (filter p l) <= List.length (filter q l))%nat.
Proof.
  intros Hpq. split.
  - intros x Hx. apply filter_In in Hx. apply filter_In.
    split; [apply Hx|apply Hpq, Hx].
  - induction l as [|a l IH]; [cbn; lia|].
    cbn [filter]. destruct (p a) eqn:Hp.
    + rewrite (Hpq a Hp). cbn [List.length]. lia.
    + destruct (q a); cbn [List.length]; lia.
Qed.

(** X19. A narrower query selects among the rows of the wider one: the rows of a
    day are rows of its month, the rows of a month are rows of its year, and
    the counts grow accordingly. *)
Theorem narrower_query_selects_fewer (dir : direction) (df : DataFrame)
    (y m d : Z) :
  let exact := rows (query dir df (Some y) (Some m) (Some d)) in
  let of_month := rows (query dir df (Some y) (Some m) None) in
  let of_year := rows (query dir df (Some y) None None) in
  incl exact of_month /\ incl of_month of_year /\
  len exact <= len of_month <= len of_year.
Proof.
  cbv zeta. rewrite !query_rows.
  change (get_dtype (Some y) (Some m) (Some d)) with "date"%string.
  change (get_dtype (Some y) (Some m) None) with "month_range"%string.
  change (get_dtype (Some y) None None) with "year_range"%string.
  destruct (filter_narrower
              (matches dir "date" (Some y) (Some m) (Some d))
              (matches dir "month_range" (Some y) (Some m) None) df)
    as [Hi1 Hl1].
  { intros x. unfold matches; cbn. intros H.
    apply andb_true_iff in H. apply H. }
  destruct (filter_narrower
              (matches dir "month_range" (Some y) (Some m) None)
              (matches dir "year_range" (Some y) None None) df)
    as [Hi2 Hl2].
  { intros x. unfold matches; cbn. intros H.
    apply andb_true_iff in H. apply H. }
  unfold len. repeat split; try assumption; lia.
Qed.

End Spans.

(** * The two classifiers and the loader *)

Section ClassifiersAndLoader.

(** X20. [DateMapping.get_dtype] treats a zero like a missing component; on
    queries without zeros it answers what [HijriDateMapper.get_dtype]
    answers, except that it answers [None] when the year is missing or a day
    comes without a month. *)
Theorem classifiers_compared (year month day : option Z) :
  DateMapping.get_dtype year month day
  = DateMapping.get_dtype (drop_zero year) (drop_zero month) (drop_zero day)
  /\
  DateMapping.get_dtype (drop_zero year) (drop_zero month) (drop_zero day)
  = match drop_zero year, drop_zero month, drop_zero day with
    | None, _, _ => None
    | Some _, None, Some _ => None
    | y, m, d => Some (HijriDateMapper.get_dtype y m d)
    end.
Proof.
  destruct year as [[|?|?]|], month as [[|?|?]|], day as [[|?|?]|];
    split; reflexivity.
Qed.

(** X22. Once a table has been loaded, [load_data] keeps answering that table and
    reads nothing, whatever the file has become; [reload_data] answers what
    the file holds now, and when that read fails the loader is left without
    a table. *)
Theorem loader_keeps_the_first_table (df : DataFrame)
    (disk : LoadError + DataFrame) (e : LoadError) :
  let loaded := snd (DateLoader.load_data (inr df) DateLoader.__init__) in
  DateLoader.load_data (inr df) DateLoader.__init__ = (inr df, loaded) /\
  DateLoader.load_data disk loaded = (inr df, loaded) /\
  fst (DateLoader.reload_data disk loaded) = disk /\
  DateLoader.reload_data (inl e) loaded = (inl e, DateLoader.__init__) /\
  DateLoader.load_data (inl e) DateLoader.__init__
  = (inl e, DateLoader.__init__).
Proof.
  cbn. repeat split. now destruct disk.
Qed.

End ClassifiersAndLoader.

(** * The date range generator *)

Section DateRange.

Import HijriDate.

Lemma to_ordinal_injective_early (a b : t) :
  valid a -> valid b -> day_of_year a < 354 -> day_of_year b < 354 ->
  _to_ordinal a = _to_ordinal b -> a = b.
Proof.
  intros Va Vb Ha Hb Hab.
  pose proof (from_ordinal_to_ordinal_early a Va Ha) as Ra.
  pose proof (from_ordinal_to_ordinal_early b Vb Hb) as Rb.
  rewrite Hab, Rb in Ra. now injection Ra.
Qed.

Lemma le_iff_ordinal_early (a b : t) :
  valid a -> valid b -> day_of_year a < 354 -> day_of_year b < 354 ->
  (HijriDateOrdering.__le__ a b = true <-> _to_ordinal a <= _to_ordinal b).
Proof.
  intros Va Vb Ha Hb. unfold HijriDateOrdering.__le__.
  rewrite orb_true_iff, (lt_iff_ordinal_early a b Va Vb Ha Hb).
  rewrite eq_true_iff. split.
  - intros [H| ->]; lia.
  - intros H. destruct (Z.eq_dec (_to_ordinal a) (_to_ordinal b)) as [E|E].
    + right. now apply to_ordinal_injective_early.
    + left. lia.
Qed.

Lemma progression_shift (a step : Z) (n : nat) :
  map (fun k => a + step + Z.of_nat k * step) (seq 0 n)
  = map (fun k => a + Z.of_nat k * step) (seq 1 n).
Proof.
  rewrite <- seq_shift, map_map. apply map_ext. intros k. lia.
Qed.

Lemma date_range_terminates (end_date : t) (step : Z) :
  valid end_date -> day_of_year end_date < 354 -> 1 <= step ->
  forall n start,
    valid start -> day_of_year start < 354 ->
    _to_ordinal end_date - _to_ordinal start + 1 <= Z.of_nat n ->
    exists dates,
      hijri_date_range (S n) start end_date step = Some (inr dates) /\
      map _to_ordinal dates
      = map (fun k => _to_ordinal start + Z.of_nat k * step)
            (seq 0 (List.length dates)) /\
      _to_ordinal end_date < _to_ordinal start + len dates * step /\
      (forall d, In d dates ->
                 valid d /\ _to_ordinal d <= _to_ordinal end_date).
Proof.
  intros Ve He Hstep. induction n as [|n IH]; intros start Vs Hs Hn.
  - exists []. cbn [hijri_date_range].
    replace (HijriDateOrdering.__le__ start end_date) with false.
    + split; [reflexivity|]. split; [reflexivity|].
      split; [unfold len; cbn; lia|intros d []].
    + symmetry. apply not_true_iff_false.
      rewrite le_iff_ordinal_early by assumption. lia.
  - change (hijri_date_range (S (S n)) start end_date step) with
      (if HijriDateOrdering.__le__ start end_date then
         match __add__ start (mk_iTimedelta step) with
         | inl e => Some (inl e)
         | inr next =>
             match hijri_date_range (S n) next end_date step with
             | None => None
             | Some (inl e) => Some (inl e)
             | Some (inr later) => Some (inr (start :: later))
             end
         end
       else Some (inr [])).
    destruct (HijriDateOrdering.__le__ start end_date) eqn:Hle.
    + apply le_iff_ordinal_early in Hle; try assumption.
      unfold __add__, _add_days; cbn [days].
      destruct (from_ordinal_day_of_year (_to_ordinal start + step))
        as (next & Hnext & Vn & Hdoy & Hord).
      rewrite Hnext.
      assert (Hne : day_of_year next < 354)
        by (rewrite Hdoy; apply Z.mod_pos_bound; lia).
      destruct (IH next Vn Hne ltac:(lia))
        as (later & Hrun & Hords & Hmax & Hall).
      rewrite Hrun. exists (start :: later).
      split; [reflexivity|]. split; [|split].
      * cbn [map List.length seq]. f_equal; [lia|].
        rewrite Hords, Hord. apply progression_shift.
      * rewrite Hord in Hmax. unfold len in *. cbn [List.length]. lia.
      * intros d [<-|Hd]; [split; [assumption|lia]|now apply Hall].
    + exists []. apply not_true_iff_false in Hle.
      rewrite le_iff_ordinal_early in Hle by assumption.
      split; [reflexivity|]. split; [reflexivity|].
      split; [unfold len; cbn; lia|intros d []].
Qed.

(** X23. With a step of at least one day, between valid dates no later than the
    24th of the twelfth month, the generator ends: it yields dates whose
    ordinals are those of the start plus 0, 1, 2, ... steps, all of them
    valid and none beyond the end date, and the next step would go beyond
    it. *)
Theorem date_range_yields_progression (start end_date : t) (step : Z) :
  valid start -> day_of_year start < 354 ->
  valid end_date -> day_of_year end_date < 354 ->
  1 <= step ->
  exists fuel dates,
    hijri_date_range fuel start end_date step = Some (inr dates) /\
    map _to_ordinal dates
    = map (fun k => _to_ordinal start + Z.of_nat k * step)
          (seq 0 (List.length dates)) /\
    _to_ordinal end_date < _to_ordinal start + len dates * step /\
    (forall d, In d dates -> valid d /\ _to_ordinal d <= _to_ordinal end_date).
Proof.
  intros Vs Hs Ve He Hstep.
  set (n := Z.to_nat (_to_ordinal end_date - _to_ordinal start + 1)).
  destruct (date_range_terminates end_date step Ve He Hstep n start Vs Hs
              ltac:(unfold n; lia)) as (dates & H).
  exists (S n), dates. exact H.
Qed.

Lemma date_range_yields_progression_witness :
  exists fuel dates,
    hijri_date_range fuel (mk 1447 6 1) (mk 1447 6 10) 2
    = Some (inr dates) /\
    map _to_ordinal dates
    = map (fun k => _to_ordinal (mk 1447 6 1) + Z.of_nat k * 2)
          (seq 0 (List.length dates)) /\
    _to_ordinal (mk 1447 6 10)
    < _to_ordinal (mk 1447 6 1) + len dates * 2 /\
    (forall d, In d dates ->
               valid d /\ _to_ordinal d <= _to_ordinal (mk 1447 6 10)).
Proof.
  apply (date_range_yields_progression (mk 1447 6 1) (mk 1447 6 10) 2).
  - unfold valid; simpl; lia.
  - unfold day_of_year; simpl; lia.
  - unfold valid; simpl; lia.
  - unfold day_of_year; simpl; lia.
  - lia.
Defined.

(** X24. With a step of zero or fewer days the generator never ends once its
    first test succeeds: whatever the number of tests allowed, it is still
    running. *)
Theorem date_range_runs_forever (end_date : t) (step : Z) :
  valid end_date -> day_of_year end_date < 354 -> step <= 0 ->
  forall fuel start,
    valid start -> day_of_year start < 354 ->
    HijriDateOrdering.__le__ start end_date = true ->
    hijri_date_range fuel start end_date step = None.
Proof.
  intros Ve He Hstep. induction fuel as [|fuel IH]; intros start Vs Hs Hle;
    [reflexivity|].
  cbn [hijri_date_range]. rewrite Hle.
  unfold __add__, _add_days; cbn [days].
  destruct (from_ordinal_day_of_year (_to_ordinal start + step))
    as (next & Hnext & Vn & Hdoy & Hord).
  rewrite Hnext.
  assert (Hne : day_of_year next < 354)
    by (rewrite Hdoy; apply Z.mod_pos_bound; lia).
  rewrite IH; [reflexivity|assumption|assumption|].
  apply le_iff_ordinal_early; try assumption.
  apply le_iff_ordinal_early in Hle; try assumption. lia.
Qed.

Lemma date_range_runs_forever_witness :
  hijri_date_range 1000 (mk 1447 6 1) (mk 1447 6 10) 0 = None.
Proof.
  apply (date_range_runs_forever (mk 1447 6 10) 0).
  - unfold valid; simpl; lia.
  - unfold day_of_year; simpl; lia.
  - lia.
  - unfold valid; simpl; lia.
  - unfold day_of_year; simpl; lia.
  - reflexivity.
Defined.

End DateRange.
